(** * ShiibaNFTUnity: the PLY point-cloud scripts

    A shallow embedding of the two Python utilities of the repository:

    - [blender/script.py], which loads a binary little-endian PLY file with
      per-point colour and velocity into Blender as a point-cloud mesh
      (module [Importer]);
    - [plyreaed.py], which prints the first vertices of a PLY file
      (module [Inspector]).

    Python [bytes] are lists of [Byte.byte]; an open binary file is its
    content together with the current position; a NumPy [float32] is carried
    as its IEEE-754 binary32 bit pattern (a 32-bit [Z]), and arithmetic on
    floats is done with the [SpecFloat] operations of the standard library.
    Loops that Python may run for ever take a fuel argument. *)

From Stdlib Require Import ZArith List Lia.
From Stdlib Require Import Strings.Ascii Strings.String Strings.Byte.
From Stdlib Require Import Floats.SpecFloat.
From stdpp Require Import gmap strings list pretty.

(** ** Python bytes *)

Module PyBytes.

Abbreviation bytes := (list byte).

#[global] Instance byte_eq_decision : EqDecision byte := Byte.byte_eq_dec.

(** A bytes literal such as [b'end_header']. *)
Definition b (s : string) : bytes := list_byte_of_string s.

Definition newline : byte := x0a.

(** The bytes that [bytes.strip()] removes when called without argument:
    space, tab, newline, carriage return, vertical tab and form feed. *)
Definition is_space (c : byte) : bool :=
  match c with
  | x09 | x0a | x0b | x0c | x0d | x20 => true
  | _ => false
  end.

Fixpoint lstrip (s : bytes) : bytes :=
  match s with
  | c :: s' => if is_space c then lstrip s' else s
  | [] => []
  end.

Definition rstrip (s : bytes) : bytes := rev (lstrip (rev s)).

Definition strip (s : bytes) : bytes := rstrip (lstrip s).

End PyBytes.

(** ** Binary files opened for reading *)

Module PyFile.
Import PyBytes.

(** [open(path, 'rb')]: the content and the position of the next read. *)
Record file := File { content : bytes; position : nat }.

Definition open_rb (data : bytes) : file := File data 0.

Definition tell (f : file) : nat := position f.

Definition seek (f : file) (offset : nat) : file := File (content f) offset.

(** What is left to read. *)
Definition remaining (f : file) : bytes := drop (position f) (content f).

(** The bytes up to and including the first newline, or all of them when
    there is no newline. *)
Fixpoint take_line (s : bytes) : bytes :=
  match s with
  | [] => []
  | c :: s' => if decide (c = newline) then [c] else c :: take_line s'
  end.

(** [f.readline()]: returns the line and advances the position by its
    length; at end of file the line is empty and the position stays. *)
Definition readline (f : file) : bytes * file :=
  let line := take_line (remaining f) in
  (line, File (content f) (position f + length line)).

(** A complete line: bytes without a newline, then the newline. *)
Definition is_line (l : bytes) : Prop :=
  ∃ body, l = body ++ [newline] ∧ newline ∉ body.

(** The lines of a byte string, each with its newline; the last one has
    none when the string does not end with a newline. *)
Fixpoint split_lines (s : bytes) : list bytes :=
  match s with
  | [] => []
  | c :: s' =>
      if decide (c = newline) then [c] :: split_lines s'
      else
        match split_lines s' with
        | [] => [[c]]
        | l :: ls => (c :: l) :: ls
        end
  end.

End PyFile.

(** ** IEEE-754 binary32 and binary64 values *)

Module Float.
Import PyBytes.

(** The value of an unsigned byte. *)
Definition u8 (c : byte) : Z := Z.of_N (Byte.to_N c).

Definition byte_of_Z (n : Z) : byte :=
  match Byte.of_N (Z.to_N (n mod 256)) with
  | Some c => c
  | None => x00
  end.

(** A little-endian 32-bit word and its four bytes. *)
Definition le32 (b0 b1 b2 b3 : byte) : Z :=
  (u8 b0 + 2 ^ 8 * u8 b1 + 2 ^ 16 * u8 b2 + 2 ^ 24 * u8 b3)%Z.

Definition le32_bytes (w : Z) : bytes :=
  [byte_of_Z w; byte_of_Z (w / 2 ^ 8); byte_of_Z (w / 2 ^ 16);
   byte_of_Z (w / 2 ^ 24)].

Definition is_word32 (w : Z) : Prop := (0 <= w < 2 ^ 32)%Z.

(** The number that a binary32 bit pattern denotes: sign bit 31, biased
    exponent in bits 23..30, fraction in bits 0..22. *)
Definition f32_of_bits (w : Z) : spec_float :=
  let s := Z.testbit w 31 in
  let e := ((w / 2 ^ 23) mod 2 ^ 8)%Z in
  let m := (w mod 2 ^ 23)%Z in
  if (e =? 0)%Z then
    if (m =? 0)%Z then S754_zero s else S754_finite s (Z.to_pos m) (-149)
  else if (e =? 255)%Z then
    if (m =? 0)%Z then S754_infinity s else S754_nan
  else S754_finite s (Z.to_pos (m + 2 ^ 23)) (e - 150).

(** The bit pattern of a binary32 number (the quiet NaN for NaN). *)
Definition bits_of_f32 (v : spec_float) : Z :=
  let sign (s : bool) := if s then (2 ^ 31)%Z else 0%Z in
  match v with
  | S754_zero s => sign s
  | S754_infinity s => (sign s + 255 * 2 ^ 23)%Z
  | S754_nan => (255 * 2 ^ 23 + 2 ^ 22)%Z
  | S754_finite s m e =>
      if (Z.pos m <? 2 ^ 23)%Z then (sign s + Z.pos m)%Z
      else (sign s + (e + 150) * 2 ^ 23 + (Z.pos m - 2 ^ 23))%Z
  end.

(** Whether a binary32 bit pattern is a NaN: exponent 255 and a fraction
    that is not zero. *)
Definition is_nan32 (w : Z) : bool :=
  (((w / 2 ^ 23) mod 2 ^ 8 =? 255) && negb (w mod 2 ^ 23 =? 0))%Z.

(** A binary32 number turned into a binary64 number and back. Every
    binary32 number is a binary64 number, so that it comes back bit for
    bit, except a NaN: the conversion makes a signalling NaN quiet, which
    sets bit 22 and keeps the sign and the rest of the payload. *)
Definition float32_via_float64 (w : Z) : Z :=
  if is_nan32 w then Z.lor w (2 ^ 22) else w.

(** binary64 arithmetic (Python [float], NumPy [float64]). *)
Definition f64_of_Z (n : Z) : spec_float := binary_normalize 53 1024 n 0 false.

Definition f64_div (a c : spec_float) : spec_float := SFdiv 53 1024 a c.

(** [astype(np.float32)] of a binary64 number: rounding to nearest even. *)
Definition f32_of_f64 (v : spec_float) : spec_float :=
  match v with
  | S754_finite s m e => binary_normalize 24 128 (cond_Zopp s (Z.pos m)) e s
  | _ => v
  end.

(** The exact rational [num / 2 ^ den_log2] that a finite float denotes. *)
Definition dyadic (v : spec_float) : option (Z * Z) :=
  match v with
  | S754_zero _ => Some (0%Z, 0%Z)
  | S754_finite s m e =>
      if (e <? 0)%Z then Some (cond_Zopp s (Z.pos m), (- e)%Z)
      else Some ((cond_Zopp s (Z.pos m) * 2 ^ e)%Z, 0%Z)
  | _ => None
  end.

End Float.

(** ** Running a script *)

Module Py.

(** A run on a world [W] ends normally, or with an uncaught exception of
    [E], or does not end within the fuel it was given. *)
Inductive result (W E A : Type) :=
  | Done (a : A) (w : W)
  | Raised (e : E) (w : W)
  | OutOfFuel.
Arguments Done {W E A}.
Arguments Raised {W E A}.
Arguments OutOfFuel {W E A}.

Definition M (W E A : Type) : Type := W -> result W E A.

Section Monad.
Context {W E : Type}.

Definition ret {A} (a : A) : M W E A := λ w, Done a w.

Definition bind {A B} (m : M W E A) (k : A -> M W E B) : M W E B :=
  λ w, match m w with
       | Done a w' => k a w'
       | Raised e w' => Raised e w'
       | OutOfFuel => OutOfFuel
       end.

Definition raise {A} (e : E) : M W E A := λ w, Raised e w.

Definition or_raise {A} (e : E) (o : option A) : M W E A :=
  match o with
  | Some a => ret a
  | None => raise e
  end.

End Monad.

Declare Scope py_scope.
Delimit Scope py_scope with py.
Notation "v <- m ;; k" := (bind m (λ v, k))
  (at level 100, m at next level, k at level 200, right associativity)
  : py_scope.
Notation "m ;; k" := (bind m (λ _, k))
  (at level 100, k at level 200, right associativity) : py_scope.

Section Loops.
Context {W E : Type}.
Local Open Scope py_scope.

(** [for a in l: body] *)
Fixpoint for_each {A} (l : list A) (body : A -> M W E unit) : M W E unit :=
  match l with
  | [] => ret tt
  | a :: l' => body a ;; for_each l' body
  end.

End Loops.

(** [l[:stop]] *)
Definition slice_to {A} (l : list A) (stop : Z) : list A :=
  let len := Z.of_nat (length l) in
  let stop := if (stop <? 0)%Z then Z.max (stop + len) 0 else Z.min stop len in
  take (Z.to_nat stop) l.

End Py.

(** ** The Blender host: [bpy.data] *)

Module Bpy.

(** The data of a mesh attribute in the POINT domain. *)
Inductive attribute :=
  | FLOAT_COLOR (colors : list (Z * Z * Z * Z))
  | FLOAT (values : list Z).

Inductive attribute_type := T_FLOAT_COLOR | T_FLOAT.

(** A point-only mesh: its vertices (the built-in position attribute) and
    the attributes made with [attributes.new], which are found by name
    ([attribute_of]). Blender keeps further attributes of its own on a
    mesh and orders them as it likes: the order of this list is not
    Blender's. Coordinates are binary32 bit patterns. *)
Record mesh := Mesh {
  vertices : list (Z * Z * Z);
  attributes : list (string * attribute)
}.

(** An object: the name of the mesh it holds, and whether it is linked to
    the scene collection. *)
Record object := Object { obj_data : string; in_scene : bool }.

(** The data blocks, by name. A mesh is shared between the script and the
    object that holds it, so objects refer to meshes by name. *)
Record blend_data := BlendData {
  meshes : gmap string mesh;
  objects : gmap string object
}.

(** Blender gives a new data block the requested name when it is free,
    and otherwise the first free name among [name.001], [name.002], ... *)
Definition numbered (name : string) (k : nat) : string :=
  let digits := pretty k in
  let zeros := String.concat "" (replicate (3 - String.length digits) "0") in
  name +:+ "." +:+ zeros +:+ digits.

Fixpoint first_free (taken : string -> bool) (name : string) (k tries : nat)
  : string :=
  match tries with
  | O => numbered name k
  | S tries' =>
      if taken (numbered name k) then first_free taken name (S k) tries'
      else numbered name k
  end.

Definition unique_name (taken : string -> bool) (bound : nat) (name : string)
  : string :=
  if taken name then first_free taken name 1 bound else name.

Definition in_map {A} (m : gmap string A) (name : string) : bool :=
  bool_decide (is_Some (m !! name)).

(** [name in bpy.data.objects] *)
Definition objects_contains (name : string) (d : blend_data) : bool :=
  in_map (objects d) name.

(** [bpy.data.objects.remove(bpy.data.objects[name], do_unlink=True)] *)
Definition objects_remove (name : string) (d : blend_data) : blend_data :=
  BlendData (meshes d) (delete name (objects d)).

(** [bpy.data.meshes.new(name)]: an empty mesh; the name it received. *)
Definition meshes_new (name : string) (d : blend_data) : string * blend_data :=
  let name' := unique_name (in_map (meshes d)) (size (meshes d)) name in
  (name', BlendData (<[name' := Mesh [] []]> (meshes d)) (objects d)).

(** [bpy.data.objects.new(name, mesh)]: the name the object received. *)
Definition objects_new (name mesh_name : string) (d : blend_data)
  : string * blend_data :=
  let name' := unique_name (in_map (objects d)) (size (objects d)) name in
  (name', BlendData (meshes d) (<[name' := Object mesh_name false]> (objects d))).

(** [scene.collection.objects.link(obj)]: an error when already linked. *)
Definition link (obj : string) (d : blend_data) : option blend_data :=
  o ← objects d !! obj;
  if in_scene o then None
  else Some (BlendData (meshes d) (<[obj := Object (obj_data o) true]> (objects d))).

Definition set_mesh (name : string) (m : mesh) (d : blend_data) : blend_data :=
  BlendData (<[name := m]> (meshes d)) (objects d).

Definition as_vertex (row : list Z) : option (Z * Z * Z) :=
  match row with
  | [a; b; c] => Some (a, b, c)
  | _ => None
  end.

(** [mesh.from_pydata(vertices, [], [])]: adds the vertices; every vertex
    must have three coordinates. *)
Definition from_pydata (name : string) (rows : list (list Z)) (d : blend_data)
  : option blend_data :=
  m ← meshes d !! name;
  vs ← mapM as_vertex rows;
  Some (set_mesh name (Mesh (vertices m ++ vs) (attributes m)) d).

(** [mesh.update()]: Blender recomputes what it derives from the mesh;
    the vertices, the attributes and the objects stay as they are. *)
Definition mesh_update (name : string) (d : blend_data) : blend_data := d.

Definition zeros (ty : attribute_type) (n : nat) : attribute :=
  match ty with
  | T_FLOAT_COLOR => FLOAT_COLOR (replicate n (0, 0, 0, 0)%Z)
  | T_FLOAT => FLOAT (replicate n 0%Z)
  end.

(** [mesh.attributes.new(name=.., type=.., domain='POINT')]: an attribute
    with one zero entry per vertex; the name it received. *)
Definition attributes_new (mesh_name name : string) (ty : attribute_type)
    (d : blend_data) : option (string * blend_data) :=
  m ← meshes d !! mesh_name;
  let taken s := bool_decide (s ∈ (attributes m).*1) in
  let name' := unique_name taken (length (attributes m)) name in
  Some (name',
        set_mesh mesh_name
          (Mesh (vertices m)
             (attributes m ++ [(name', zeros ty (length (vertices m)))]))
          d).

Fixpoint colors_of_flat (flat : list Z) : list (Z * Z * Z * Z) :=
  match flat with
  | r :: g :: b :: a :: flat' => (r, g, b, a) :: colors_of_flat flat'
  | _ => []
  end.

(** What [attr.data.foreach_set(prop, flat)] stores: the flat sequence
    must hold exactly the floats of every entry; an error otherwise. *)
Definition set_data (old : attribute) (flat : list Z) : option attribute :=
  match old with
  | FLOAT_COLOR cs =>
      if decide (length flat = 4 * length cs)%nat
      then Some (FLOAT_COLOR (colors_of_flat flat)) else None
  | FLOAT vs =>
      if decide (length flat = length vs) then Some (FLOAT flat) else None
  end.

Fixpoint set_attribute (attrs : list (string * attribute)) (name : string)
    (flat : list Z) : option (list (string * attribute)) :=
  match attrs with
  | [] => None
  | (n, a) :: attrs' =>
      if decide (n = name) then a' ← set_data a flat; Some ((n, a') :: attrs')
      else attrs'' ← set_attribute attrs' name flat; Some ((n, a) :: attrs'')
  end.

Definition foreach_set (mesh_name attr : string) (flat : list Z)
    (d : blend_data) : option blend_data :=
  m ← meshes d !! mesh_name;
  attrs ← set_attribute (attributes m) attr flat;
  Some (set_mesh mesh_name (Mesh (vertices m) attrs) d).

(** The attribute of that name on a mesh. *)
Definition attribute_of (m : mesh) (name : string) : option attribute :=
  (list_find (λ na, na.1 = name) (attributes m)) ≫= λ r, Some r.2.2.

End Bpy.

(** ** NumPy: the record type and the array operations the script uses *)

Module Numpy.
Import PyBytes PyFile Float.

Inductive scalar_type := F4_LE | U1.

Definition width (t : scalar_type) : nat :=
  match t with
  | F4_LE => 4
  | U1 => 1
  end.

(** [np.dtype([...])]: a packed structure, its fields laid out in order
    without padding, so that an item takes the sum of the field widths. *)
Definition dt : list (string * scalar_type) :=
  [("x", F4_LE); ("y", F4_LE); ("z", F4_LE);
   ("red", U1); ("green", U1); ("blue", U1);
   ("vx", F4_LE); ("vy", F4_LE); ("vz", F4_LE)].

Definition itemsize (d : list (string * scalar_type)) : nat :=
  foldr (λ field acc, width field.2 + acc)%nat 0%nat d.

(** One item of type [dt]. *)
Record item := Item {
  x : Z; y : Z; z : Z;
  red : byte; green : byte; blue : byte;
  vx : Z; vy : Z; vz : Z
}.

(** The item stored in 27 bytes. *)
Definition unpack (s : bytes) : option item :=
  match s with
  | [x0; x1; x2; x3; y0; y1; y2; y3; z0; z1; z2; z3; r; g; bl;
     vx0; vx1; vx2; vx3; vy0; vy1; vy2; vy3; vz0; vz1; vz2; vz3] =>
      Some (Item (le32 x0 x1 x2 x3) (le32 y0 y1 y2 y3) (le32 z0 z1 z2 z3)
              r g bl
              (le32 vx0 vx1 vx2 vx3) (le32 vy0 vy1 vy2 vy3)
              (le32 vz0 vz1 vz2 vz3))
  | _ => None
  end.

(** The 27 bytes of an item in a file. *)
Definition pack (v : item) : bytes :=
  le32_bytes (x v) ++ le32_bytes (y v) ++ le32_bytes (z v)
  ++ [red v; green v; blue v]
  ++ le32_bytes (vx v) ++ le32_bytes (vy v) ++ le32_bytes (vz v).

Definition valid_item (v : item) : Prop :=
  is_word32 (x v) ∧ is_word32 (y v) ∧ is_word32 (z v)
  ∧ is_word32 (vx v) ∧ is_word32 (vy v) ∧ is_word32 (vz v).

Fixpoint read_items (num : nat) (s : bytes) : list item :=
  match num with
  | O => []
  | S num' =>
      match unpack (take (itemsize dt) s) with
      | Some v => v :: read_items num' (drop (itemsize dt) s)
      | None => []
      end
  end.

(** [np.fromfile(f, dtype=dt)]: the number of items is the number of bytes
    from the position to the end of the file divided by the item size,
    rounded down; that many items are read. *)
Definition fromfile (f : file) : list item :=
  let numbytes := (length (content f) - position f)%nat in
  let num := (numbytes / itemsize dt)%nat in
  read_items num (remaining f).

(** [np.stack(arrays, axis=1)] of one-dimensional arrays: row [i] holds
    entry [i] of every array. The arrays must have the same length. *)
Definition stack_axis1 {A} (arrays : list (list A)) : option (list (list A)) :=
  match arrays with
  | [] => None
  | a :: _ =>
      if forallb (λ a', Nat.eqb (length a') (length a)) arrays
      then mapM (λ i, mapM (λ a', a' !! i) arrays) (seq 0 (length a))
      else None
  end.

(** [a.ravel()] of a two-dimensional array, row by row. *)
Definition ravel {A} (rows : list (list A)) : list A := concat rows.

(** [a / 255.0] on a [uint8] array: a [float64] array. *)
Definition div_255 (a : list byte) : list spec_float :=
  (λ c, f64_div (f64_of_Z (u8 c)) (f64_of_Z 255)) <$> a.

(** [np.ones(n)]: a [float64] array. *)
Definition ones (n : nat) : list spec_float := replicate n (f64_of_Z 1).

(** [a.astype(np.float32)] of a [float64] array, as bit patterns. *)
Definition astype_float32 (a : list spec_float) : list Z :=
  (λ v, bits_of_f32 (f32_of_f64 v)) <$> a.

(** [a.tolist()] of a two-dimensional [float32] array: nested lists of
    Python floats, which are binary64. The entries are given here as the
    binary32 patterns that a consumer storing [float32] gets back from
    them. *)
Definition tolist (rows : list (list Z)) : list (list Z) :=
  (λ row : list Z, float32_via_float64 <$> row) <$> rows.

(** [a.astype(np.float32)] of an array that is [float32] already: a copy. *)
Definition astype_float32_copy (a : list Z) : list Z := a.

End Numpy.

(** ** The import script, [blender/script.py] *)

Module Importer.
Import PyBytes PyFile Float Numpy Bpy.

Inductive exn := FileNotFoundError | IndexError | ValueError | RuntimeError.

(** The lines the script prints; numbers are kept as values. *)
Inductive printed :=
  | Loaded (n : nat)
  | FirstPoint (x y z : Z)
  | FirstColor (r g b : byte)
  | FirstVelocity (vx vy vz : Z)
  | Completed
  | SpreadsheetHint.

(** What the script acts on: Blender's data and the console. *)
Record world := World { bpy_data : blend_data; stdout : list printed }.

Import Py.
Local Open Scope py_scope.

Abbreviation M := (Py.M world exn).

Definition print (p : printed) : M unit :=
  λ w, Done tt (World (bpy_data w) (stdout w ++ [p])).

(** A Blender call that has a result, one that has none, one that can fail. *)
Definition call {A} (f : blend_data -> A * blend_data) : M A :=
  λ w, let '(a, d) := f (bpy_data w) in Done a (World d (stdout w)).

Definition call_ (f : blend_data -> blend_data) : M unit :=
  call (λ d, (tt, f d)).

Definition try_call {A} (f : blend_data -> option (A * blend_data)) : M A :=
  λ w, match f (bpy_data w) with
       | Some (a, d) => Done a (World d (stdout w))
       | None => Raised RuntimeError w
       end.

Definition try_call_ (f : blend_data -> option blend_data) : M unit :=
  try_call (λ d, d' ← f d; Some (tt, d')).

(** [a[i]] *)
Definition index {A} (a : list A) (i : nat) : M A := or_raise IndexError (a !! i).

Definition ply_path : string :=
  "/Volumes/horristicSSD2T/Dropbox/projects/shiiba/mesh_exported/assets/Totori/PLY_Filtered_Motion/filtered_frame_0860.ply".

(** [open(path, 'rb')] in a file system made of readable regular files:
    a path that is not in it does not exist, and opening it raises
    [FileNotFoundError]. Directories and files that may not be read are
    not represented. *)
Definition open (fs : gmap string bytes) (path : string) : M file :=
  or_raise FileNotFoundError (open_rb <$> fs !! path).

Definition end_header : bytes := b "end_header".

(** [while line.strip() != b'end_header': line = f.readline()] and then
    [f.tell()]. Every turn of the loop takes one unit of fuel; [None] when
    the loop is still running after [fuel] turns. *)
Fixpoint scan_header (fuel : nat) (line : bytes) (f : file) : option nat :=
  if decide (strip line = end_header) then Some (tell f)
  else
    match fuel with
    | O => None
    | S fuel' => let '(line', f') := readline f in scan_header fuel' line' f'
    end.

Definition find_header_end (fuel : nat) (f : file) : M nat :=
  λ w, match scan_header fuel [] f with
       | Some header_end => Done header_end w
       | None => OutOfFuel
       end.

(** The two [with open(...)] blocks: the position after the header, then
    the items from there to the end of the file. *)
Definition read_points (fuel : nat) (fs : gmap string bytes) : M (list item) :=
  f <- open fs ply_path ;;
  header_end <- find_header_end fuel f ;;
  f <- open fs ply_path ;;
  ret (fromfile (seek f header_end)).

(** Removal of the object left by an earlier run. *)
Definition remove_existing : M unit :=
  present <- call (λ d, (objects_contains "PointCloud" d, d)) ;;
  if present : bool then call_ (objects_remove "PointCloud") else ret tt.

(** The four lines printed after loading. *)
Definition report (data : list item) : M unit :=
  let n := length data in
  print (Loaded n) ;;
  x0 <- index (x <$> data) 0 ;;
  y0 <- index (y <$> data) 0 ;;
  z0 <- index (z <$> data) 0 ;;
  print (FirstPoint x0 y0 z0) ;;
  r0 <- index (red <$> data) 0 ;;
  g0 <- index (green <$> data) 0 ;;
  b0 <- index (blue <$> data) 0 ;;
  print (FirstColor r0 g0 b0) ;;
  vx0 <- index (vx <$> data) 0 ;;
  vy0 <- index (vy <$> data) 0 ;;
  vz0 <- index (vz <$> data) 0 ;;
  print (FirstVelocity vx0 vy0 vz0).

(** Mesh creation: the object, its mesh and the vertex coordinates. The
    name of the mesh is returned. The coordinates reach Blender through
    [positions.tolist()], that is as Python floats, and are stored as
    binary32 again. *)
Definition create_mesh (data : list item) : M string :=
  mesh <- call (meshes_new "PointCloudMesh") ;;
  obj <- call (objects_new "PointCloud" mesh) ;;
  try_call_ (link obj) ;;
  positions <- or_raise ValueError
                 (stack_axis1 [x <$> data; y <$> data; z <$> data]) ;;
  try_call_ (from_pydata mesh (tolist positions)) ;;
  call_ (mesh_update mesh) ;;
  ret mesh.

(** The custom attributes: colour, then the three velocity components. *)
Definition add_attributes (mesh : string) (data : list item) : M unit :=
  let n := length data in
  color_attr <- try_call (attributes_new mesh "color" T_FLOAT_COLOR) ;;
  colors <- or_raise ValueError
              (stack_axis1 [div_255 (red <$> data); div_255 (green <$> data);
                            div_255 (blue <$> data); ones n]) ;;
  try_call_ (foreach_set mesh color_attr (ravel (astype_float32 <$> colors))) ;;
  for_each [("vx", vx <$> data); ("vy", vy <$> data); ("vz", vz <$> data)]
    (λ '(name, arr),
       attr <- try_call (attributes_new mesh name T_FLOAT) ;;
       try_call_ (foreach_set mesh attr (astype_float32_copy arr))).

Definition script (fuel : nat) (fs : gmap string bytes) : M unit :=
  remove_existing ;;
  data <- read_points fuel fs ;;
  report data ;;
  mesh <- create_mesh data ;;
  add_attributes mesh data ;;
  print Completed ;;
  print SpreadsheetHint.

End Importer.

(** ** Python [str] to [int] *)

Module PyInt.

Definition code (c : ascii) : nat := nat_of_ascii c.

(** The characters [int()] skips around the literal: tab, newline,
    vertical tab, form feed, carriage return and space. *)
Definition is_space (c : ascii) : bool :=
  let n := code c in
  ((9 <=? n) && (n <=? 13) || (n =? 32))%nat.

Definition digit (c : ascii) : option Z :=
  let n := code c in
  if ((48 <=? n) && (n <=? 57))%nat then Some (Z.of_nat (n - 48)) else None.

Fixpoint lstrip (s : list ascii) : list ascii :=
  match s with
  | c :: s' => if is_space c then lstrip s' else s
  | [] => []
  end.

Definition strip (s : list ascii) : list ascii :=
  rev (lstrip (rev (lstrip s))).

(** The digits of a literal: groups of digits separated by single
    underscores. [after_digit] tells whether the previous character was a
    digit; the result is the value and the number of digits. *)
Fixpoint digits (acc : Z) (count : nat) (after_digit : bool) (s : list ascii)
  : option (Z * nat) :=
  match s with
  | [] => if after_digit then Some (acc, count) else None
  | c :: s' =>
      if Ascii.eqb c "_"%char then
        if after_digit then digits acc count false s' else None
      else
        match digit c with
        | Some d => digits (10 * acc + d) (S count) true s'
        | None => None
        end
  end.

(** The default of [sys.get_int_max_str_digits()]. *)
Definition max_str_digits : nat := 4300.

Definition unsigned (s : list ascii) : option Z :=
  match digits 0 0 false s with
  | Some (n, count) => if (count <=? max_str_digits)%nat then Some n else None
  | None => None
  end.

(** [int(s)] in base ten for a string [s] of ASCII characters: optional
    surrounding white space, an optional sign, then the digits. [None]
    stands for [ValueError]. Python also accepts the decimal digits and
    the white space of other scripts; this function is not meant for
    strings with characters outside ASCII, and the inspector below takes
    the conversion as a parameter instead. *)
Definition int (s : string) : option Z :=
  match strip (list_ascii_of_string s) with
  | c :: s' =>
      if Ascii.eqb c "-"%char then Z.opp <$> unsigned s'
      else if Ascii.eqb c "+"%char then unsigned s'
      else unsigned (c :: s')
  | [] => None
  end.

End PyInt.

(** ** The inspector script, [plyreaed.py] *)

Module Inspector.
Import Py.
Local Open Scope py_scope.

(** What [PlyData.read] can raise is left open as [read_error]. *)
Inductive exn (read_error : Type) :=
  | SystemExit (status : Z)
  | IndexError
  | ValueError
  | KeyError
  | ReadError (e : read_error).
Arguments SystemExit {read_error}.
Arguments IndexError {read_error}.
Arguments ValueError {read_error}.
Arguments KeyError {read_error}.
Arguments ReadError {read_error}.

(** The exit status of the interpreter. *)
Definition exit_status {W RE A} (r : result W (exn RE) A) : option Z :=
  match r with
  | Done _ _ => Some 0%Z
  | Raised (SystemExit status) _ => Some status
  | Raised _ _ => Some 1%Z
  | OutOfFuel => None
  end.

Section Script.
(** The rows and the dtype of an element's array are what the PLY header
    declares; the script only passes them to [print]. *)
Context {V D RE : Type}.

(** [ply[name].data] and its [dtype]. *)
Record element := Element { dtype : D; data : list V }.

(** A [PlyData]: its elements by name. *)
Abbreviation PlyData := (gmap string element).

(** One entry per call of [print]. *)
Inductive printed :=
  | Usage
  | Reading (filename : string)
  | VertexDataTypeHeading
  | DType (d : D)
  | FirstVerticesHeading (num_line : Z)
  | VertexLine (v : V).

(** The console, and the files that were opened, in order. *)
Record world := World { stdout : list printed; opened : list string }.

Abbreviation M := (Py.M world (exn RE)).

Definition print (p : printed) : M unit :=
  λ w, Done tt (World (stdout w ++ [p]) (opened w)).

Definition index {A} (a : list A) (i : nat) : M A := or_raise IndexError (a !! i).

(** [sys.exit(status)] *)
Definition sys_exit {A} (status : Z) : M A := raise (SystemExit status).

(** [PlyData.read(filename)] on a file system that gives, for each file
    name, the parsed data or the error of reading it. *)
Definition PlyData_read (fs : string -> PlyData + RE) (filename : string)
  : M PlyData :=
  λ w, let w' := World (stdout w) (opened w ++ [filename]) in
       match fs filename with
       | inl ply => Done ply w'
       | inr e => Raised (ReadError e) w'
       end.

(** [ply[name]] *)
Definition getitem (ply : PlyData) (name : string) : M element :=
  or_raise KeyError (ply !! name).

(** The script. The builtin [int] is a parameter: [int s] is [Some n]
    when [int(s)] is [n], and [None] when it raises [ValueError]. *)
Definition main (int : string -> option Z) (fs : string -> PlyData + RE)
    (argv : list string) : M unit :=
  (if bool_decide (length argv < 2) then
     print Usage ;; sys_exit 1
   else ret tt) ;;
  filename <- index argv 1 ;;
  num_line <- (if bool_decide (2 < length argv) then
                 arg <- index argv 2 ;; or_raise ValueError (int arg)
               else ret 5%Z) ;;
  print (Reading filename) ;;
  ply <- PlyData_read fs filename ;;
  print VertexDataTypeHeading ;;
  vertex <- getitem ply "vertex" ;;
  print (DType (dtype vertex)) ;;
  print (FirstVerticesHeading num_line) ;;
  for_each (slice_to (data vertex) num_line) (λ v, print (VertexLine v)).

(** The vertex lines among what was printed. *)
Definition vertex_lines (out : list printed) : list V :=
  omap (λ p, match p with VertexLine v => Some v | _ => None end) out.

End Script.
Arguments element : clear implicits.
Arguments printed : clear implicits.
Arguments world : clear implicits.

Definition start {V D} : world V D := World [] [].

(** The count that the arguments after the file name ask for, [int]
    being the conversion. *)
Definition requests (int : string -> option Z) (args : list string) (N : Z)
  : Prop :=
  match args with
  | [] => N = 5%Z
  | arg :: _ => int arg = Some N
  end.

(** What a run prints and opens when it gets as far as the slice with
    the count [N]. *)
Definition listing {V D} (filename : string) (vertex : element V D) (N : Z)
  : world V D :=
  World ([Reading filename; VertexDataTypeHeading; DType (dtype vertex);
          FirstVerticesHeading N]
         ++ (VertexLine <$> slice_to (data vertex) N))
    [filename].

(** A file system with one file of ten vertices, for the scenarios. *)
Definition ten_vertices : list Numpy.item :=
  (λ k, Numpy.Item (Z.of_nat k) 0 0 x00 x00 x00 0 0 0) <$> seq 0 10.

Definition ten : element Numpy.item (list (string * Numpy.scalar_type)) :=
  Element Numpy.dt ten_vertices.

Definition one_file (name : string)
  : gmap string (element Numpy.item (list (string * Numpy.scalar_type)))
    + string :=
  if decide (name = "ten.ply") then inl {["vertex" := ten]}
  else inr "No such file or directory".

End Inspector.

(** ** What an import leaves in Blender *)

Module PointCloud.
Import PyBytes PyFile Float Numpy Bpy Importer.

(** A colour channel: the byte as a binary64 number, divided by 255.0,
    rounded to binary32. *)
Definition channel (c : byte) : Z :=
  bits_of_f32 (f32_of_f64 (f64_div (f64_of_Z (u8 c)) (f64_of_Z 255))).

(** The binary32 number that [np.ones] gives after [astype]. *)
Definition alpha : Z := bits_of_f32 (f32_of_f64 (f64_of_Z 1)).

(** The coordinates as Blender stores them. *)
Definition position_of (v : item) : Z * Z * Z :=
  (float32_via_float64 (x v), float32_via_float64 (y v),
   float32_via_float64 (z v)).

Definition color_of (v : item) : Z * Z * Z * Z :=
  (channel (red v), channel (green v), channel (blue v), alpha).

(** The mesh of the point cloud for the items of a file. *)
Definition mesh_of (items : list item) : mesh :=
  Mesh (position_of <$> items)
    [("color", FLOAT_COLOR (color_of <$> items));
     ("vx", FLOAT (vx <$> items));
     ("vy", FLOAT (vy <$> items));
     ("vz", FLOAT (vz <$> items))].

(** The relative distance of a binary32 number [w] to the quotient
    [c / 255] is at most [2 ^ -24]: with [w = num / 2 ^ k], this is
    [|255 * num - c * 2 ^ k| * 2 ^ 24 <= c * 2 ^ k]. *)
Definition near_quotient (w : Z) (c : byte) : bool :=
  match dyadic (f32_of_bits w) with
  | Some (num, k) =>
      (Z.abs (255 * num - u8 c * 2 ^ k) * 2 ^ 24 <=? u8 c * 2 ^ k)%Z
  | None => false
  end.

(** The world after a run that found the header and at least one item. *)
Definition imported (w : world) (items : list item) (v : item) : world :=
  let d := bpy_data w in
  let mesh := (meshes_new "PointCloudMesh" d).1 in
  World (BlendData (<[mesh := mesh_of items]> (meshes d))
           (<["PointCloud" := Object mesh true]> (objects d)))
    (stdout w ++ [Loaded (length items);
                  FirstPoint (x v) (y v) (z v);
                  FirstColor (red v) (green v) (blue v);
                  FirstVelocity (vx v) (vy v) (vz v);
                  Completed; SpreadsheetHint]).

(** What the colour attribute holds for a channel byte [c]: the result [w]
    of the division as the script computes it, which is near the quotient,
    and is exactly 0.0 for 0 and exactly 1.0 for 255. *)
Definition derived_channel (w : Z) (c : byte) : Prop :=
  w = channel c
  ∧ near_quotient w c = true
  ∧ (c = x00 -> f32_of_bits w = S754_zero false)
  ∧ (c = xff -> f32_of_bits w = SFone 24 128).

(** How a coordinate [w] of the file is stored in the mesh: as the
    pattern [p] that the trip through Python floats gives, which denotes
    the same number, and is the same pattern unless [w] is a NaN. *)
Definition stored_as (p w : Z) : Prop :=
  p = float32_via_float64 w
  ∧ f32_of_bits p = f32_of_bits w
  ∧ (is_nan32 w = false -> p = w).

(** A mesh that holds the point cloud of the items: the vertices, and
    under their names the colour and the three velocity attributes. *)
Definition is_point_cloud (m : mesh) (items : list item) : Prop :=
  vertices m = position_of <$> items
  ∧ attribute_of m "color" = Some (FLOAT_COLOR (color_of <$> items))
  ∧ attribute_of m "vx" = Some (FLOAT (vx <$> items))
  ∧ attribute_of m "vy" = Some (FLOAT (vy <$> items))
  ∧ attribute_of m "vz" = Some (FLOAT (vz <$> items)).

(** The header of the scenario, line by line. *)
Definition header_lines : list bytes :=
  [b "ply" ++ [newline]; b "format binary_little_endian 1.0" ++ [newline]].

Definition sentinel_line : bytes := b "end_header" ++ [newline].

Definition header : bytes := concat header_lines ++ sentinel_line.

(** Three items with distinct fields: positions (1, 2, 3), (4, 5, 6) and
    (-1.5, 0, 0.25), and velocities from 0.1 to 0.9, as bit patterns. *)
Definition item1 : item :=
  Item 0x3f800000 0x40000000 0x40400000 x00 x80 xff
       0x3dcccccd 0x3e4ccccd 0x3e99999a.
Definition item2 : item :=
  Item 0x40800000 0x40a00000 0x40c00000 x0a x14 x1e
       0x3ecccccd 0x3f000000 0x3f19999a.
Definition item3 : item :=
  Item 0xbfc00000 0x00000000 0x3e800000 xc8 x64 x32
       0x3f333333 0x3f4ccccd 0x3f666666.

Definition scenario : bytes := header ++ concat (pack <$> [item1; item2; item3]).

(** The same file with one stray byte at the end, and a file whose header
    stops before the sentinel. *)
Definition misaligned : bytes := header ++ pack item1 ++ [x2a].

Definition unterminated : bytes := concat header_lines.

(** An empty Blender file, and one that holds the result of an earlier
    import. *)
Definition empty_world : world := World (BlendData ∅ ∅) [].

Definition earlier_world : world :=
  World (BlendData {["PointCloudMesh" := mesh_of [item2]]}
           {["PointCloud" := Object "PointCloudMesh" true]}) [].

End PointCloud.

(** ** Decimal numerals *)

Module Decimal.





End Decimal.

(** * Properties *)

(** ** Lines and [readline] *)

Module PyFileFacts.
Import PyBytes PyFile.

Lemma take_line_line (l rest : bytes) :
  is_line l -> take_line (l ++ rest) = l.
Proof.
  intros (body & -> & Hnl).
  induction body as [|c body IH]; simpl.
  - reflexivity.
  - rewrite not_elem_of_cons in Hnl. destruct Hnl as [Hc Hbody].
    rewrite decide_False by congruence. by rewrite IH.
Qed.

(** The first line that [split_lines] gives is the one [readline] reads,
    and the other lines are those of the rest of the string. *)
Lemma split_lines_take_line (c : byte) (s : bytes) :
  split_lines (c :: s)
  = take_line (c :: s)
    :: split_lines (drop (length (take_line (c :: s))) (c :: s)).
Proof.
  revert c. induction s as [|c' s IH]; intros c; simpl.
  - destruct (decide (c = newline)); reflexivity.
  - destruct (decide (c = newline)) as [->|Hc]; [reflexivity|].
    specialize (IH c'). simpl in IH. rewrite IH. reflexivity.
Qed.

Lemma remaining_seek (pre s : bytes) :
  remaining (File (pre ++ s) (length pre)) = s.
Proof. unfold remaining. simpl. by rewrite drop_app_length. Qed.

Lemma remaining_readline (f : file) :
  remaining (readline f).2 = drop (length (readline f).1) (remaining f).
Proof.
  unfold readline, remaining. simpl. rewrite drop_drop. reflexivity.
Qed.

End PyFileFacts.

(** ** The header scan *)

Module HeaderFacts.
Import PyBytes PyFile PyFileFacts Py Importer.

Lemma scan_header_stop (fuel : nat) (line : bytes) (f : file) :
  strip line = end_header -> scan_header fuel line f = Some (tell f).
Proof. intros H. destruct fuel; simpl; by rewrite decide_True. Qed.

Lemma scan_header_step (fuel : nat) (line : bytes) (f : file) :
  strip line ≠ end_header ->
  scan_header (S fuel) line f
  = scan_header fuel (readline f).1 (readline f).2.
Proof. intros H. simpl. by rewrite decide_False. Qed.

Lemma empty_line_not_sentinel : strip [] ≠ end_header.
Proof. discriminate. Qed.

(** The scan stops after the first line that strips to the sentinel, at
    the position just after that line. *)
Lemma scan_header_found (before : list bytes) (sentinel rest : bytes) :
  Forall is_line before ->
  Forall (λ l, strip l ≠ end_header) before ->
  is_line sentinel ->
  strip sentinel = end_header ->
  ∀ (pre line : bytes) (fuel : nat),
    strip line ≠ end_header ->
    length before < fuel ->
    scan_header fuel line
      (File (pre ++ concat before ++ sentinel ++ rest) (length pre))
    = Some (length (pre ++ concat before ++ sentinel)).
Proof.
  intros Hlines Hnot Hsent Hstrip.
  induction before as [|l before IH]; intros pre line fuel Hline Hfuel.
  - destruct fuel as [|fuel]; [simpl in Hfuel; lia|].
    rewrite scan_header_step by done.
    unfold readline. simpl concat. rewrite remaining_seek. simpl.
    rewrite take_line_line by done.
    rewrite scan_header_stop by done.
    unfold tell. simpl. by rewrite length_app.
  - destruct fuel as [|fuel]; [simpl in Hfuel; lia|].
    apply Forall_cons in Hlines as [Hl Hlines].
    apply Forall_cons in Hnot as [Hnl Hnot].
    rewrite scan_header_step by done.
    unfold readline. simpl concat. rewrite remaining_seek.
    rewrite <- !(assoc_L (++)). simpl.
    rewrite take_line_line by done.
    rewrite <- length_app.
    rewrite (assoc_L (++) pre l). rewrite (assoc_L (++) pre l).
    apply IH; [done..|]. simpl in Hfuel. lia.
Qed.

(** Without such a line the loop goes on: past the end of the file every
    [readline] gives the empty line, which is not the sentinel. *)
Lemma scan_header_never (fuel : nat) :
  ∀ (line : bytes) (f : file),
    strip line ≠ end_header ->
    Forall (λ l, strip l ≠ end_header) (split_lines (remaining f)) ->
    scan_header fuel line f = None.
Proof.
  induction fuel as [|fuel IH]; intros line f Hline Hrest.
  - simpl. by rewrite decide_False.
  - rewrite scan_header_step by done.
    apply IH.
    + unfold readline. simpl.
      destruct (remaining f) as [|c s] eqn:Hrem;
        [apply empty_line_not_sentinel|].
      rewrite split_lines_take_line in Hrest.
      by apply Forall_cons in Hrest as [? _].
    + rewrite remaining_readline. unfold readline. simpl.
      destruct (remaining f) as [|c s] eqn:Hrem; [done|].
      rewrite split_lines_take_line in Hrest.
      by apply Forall_cons in Hrest as [_ ?].
Qed.

Lemma read_points_diverges (fuel : nat) (fs : gmap string bytes)
    (contents : bytes) (w : world) :
  fs !! ply_path = Some contents ->
  scan_header fuel [] (open_rb contents) = None ->
  read_points fuel fs w = OutOfFuel.
Proof.
  intros Hfs Hscan. unfold read_points, open, bind, find_header_end.
  rewrite Hfs. simpl. by rewrite Hscan.
Qed.

End HeaderFacts.

(** ** Packed items and [fromfile] *)

Module NumpyFacts.
Import PyBytes PyFile PyFileFacts Float Numpy.

Lemma u8_byte_of_Z (n : Z) : u8 (byte_of_Z n) = (n mod 256)%Z.
Proof.
  unfold u8, byte_of_Z.
  assert (0 <= n mod 256 < 256)%Z as Hb by (apply Z.mod_pos_bound; lia).
  destruct (Byte.of_N (Z.to_N (n mod 256))) as [c|] eqn:Hc.
  - apply Byte.to_of_N in Hc. rewrite Hc. lia.
  - apply Byte.of_N_None_iff in Hc. lia.
Qed.

Lemma le32_le32_bytes (w : Z) (b0 b1 b2 b3 : byte) :
  is_word32 w ->
  le32_bytes w = [b0; b1; b2; b3] ->
  le32 b0 b1 b2 b3 = w.
Proof.
  unfold is_word32, le32_bytes, le32. intros Hw [= <- <- <- <-].
  rewrite !u8_byte_of_Z.
  change (2 ^ 8)%Z with 256%Z. change (2 ^ 16)%Z with 65536%Z.
  change (2 ^ 24)%Z with 16777216%Z.
  change (2 ^ 32)%Z with 4294967296%Z in Hw.
  Z.div_mod_to_equations. lia.
Qed.

Lemma itemsize_dt : itemsize dt = 27.
Proof. reflexivity. Qed.

Lemma length_pack (v : item) : length (pack v) = 27.
Proof. reflexivity. Qed.

Lemma unpack_pack (v : item) : valid_item v -> unpack (pack v) = Some v.
Proof.
  destruct v as [x0 y0 z0 r g bl vx0 vy0 vz0].
  intros (Hx & Hy & Hz & Hvx & Hvy & Hvz). simpl in *.
  unfold pack, unpack. simpl.
  rewrite (le32_le32_bytes x0 _ _ _ _ Hx eq_refl).
  rewrite (le32_le32_bytes y0 _ _ _ _ Hy eq_refl).
  rewrite (le32_le32_bytes z0 _ _ _ _ Hz eq_refl).
  rewrite (le32_le32_bytes vx0 _ _ _ _ Hvx eq_refl).
  rewrite (le32_le32_bytes vy0 _ _ _ _ Hvy eq_refl).
  rewrite (le32_le32_bytes vz0 _ _ _ _ Hvz eq_refl).
  reflexivity.
Qed.

Lemma read_items_packed (items : list item) (rest : bytes) :
  Forall valid_item items ->
  read_items (length items) (concat (pack <$> items) ++ rest) = items.
Proof.
  induction 1 as [|v items Hv _ IH]; [done|].
  cbn [length fmap list_fmap concat read_items].
  rewrite itemsize_dt, <- (assoc_L (++)).
  rewrite (take_app_length' (pack v)) by done.
  rewrite (drop_app_length' (pack v)) by done.
  rewrite unpack_pack by done. by rewrite IH.
Qed.

Lemma length_concat_pack (items : list item) :
  length (concat (pack <$> items)) = 27 * length items.
Proof.
  induction items as [|v items IH]; [done|].
  cbn [fmap list_fmap concat length]. rewrite length_app, length_pack, IH. lia.
Qed.

(** [fromfile] returns the whole items that follow the position; fewer
    than 27 bytes after the last whole item are left unread, and nothing
    is raised. *)
Lemma fromfile_packed (f : file) (items : list item) (trailing : bytes) :
  remaining f = concat (pack <$> items) ++ trailing ->
  Forall valid_item items ->
  length trailing < 27 ->
  fromfile f = items.
Proof.
  intros Hrem Hvalid Htrail. unfold fromfile.
  assert (length (content f) - position f = 27 * length items + length trailing)
    as ->.
  { rewrite <- length_drop. fold (remaining f).
    by rewrite Hrem, length_app, length_concat_pack. }
  rewrite itemsize_dt, Hrem.
  replace ((27 * length items + length trailing) / 27) with (length items).
  - by apply read_items_packed.
  - apply Nat.div_unique with (length trailing); lia.
Qed.

Lemma unpack_whole (s : bytes) : length s = 27 -> is_Some (unpack s).
Proof.
  intros H. do 27 (destruct s as [|? s]; [discriminate H|]).
  destruct s; [|discriminate H]. by eexists.
Qed.

(** Whatever the bytes are, [read_items] returns as many items as it was
    asked for when there are enough bytes, item [i] being made of the 27
    bytes from offset [27 * i]. *)
Lemma read_items_chunks (num : nat) :
  ∀ s : bytes,
    27 * num <= length s ->
    length (read_items num s) = num
    ∧ ∀ i, i < num ->
        read_items num s !! i = unpack (take 27 (drop (27 * i) s)).
Proof.
  induction num as [|num IH]; intros s Hs.
  - split; [done|]. intros i Hi. lia.
  - cbn [read_items]. rewrite itemsize_dt.
    destruct (unpack_whole (take 27 s)) as [v Hv].
    { rewrite length_take. lia. }
    rewrite Hv.
    destruct (IH (drop 27 s)) as [IHlen IHi].
    { rewrite length_drop. lia. }
    split; [cbn; by rewrite IHlen|].
    intros [|i] Hi.
    + by rewrite Nat.mul_0_r, drop_0.
    + cbn [lookup list_lookup]. rewrite IHi by lia. rewrite drop_drop.
      do 3 f_equal. lia.
Qed.

Lemma fromfile_chunks (f : file) :
  let body := remaining f in
  length (fromfile f) = length body / 27
  ∧ ∀ i, i < length body / 27 ->
      fromfile f !! i = unpack (take 27 (drop (27 * i) body)).
Proof.
  intros body. unfold fromfile. rewrite itemsize_dt.
  replace (length (content f) - position f) with (length body)
    by apply length_drop.
  apply read_items_chunks. apply Nat.Div0.mul_div_le.
Qed.

End NumpyFacts.

(** ** Stacking columns *)

Module StackFacts.
Import Numpy.

(** Stacking columns that are fields of the same items gives, in row [i],
    the fields of item [i]. *)
Lemma stack_axis1_fields {A B} (fields : list (A -> B)) (items : list A) :
  fields ≠ [] ->
  stack_axis1 ((λ f, f <$> items) <$> fields)
  = Some ((λ v, (λ f, f v) <$> fields) <$> items).
Proof.
  intros Hne. destruct fields as [|f0 fields]; [done|].
  unfold stack_axis1. cbn [fmap list_fmap].
  change ((f0 <$> items) :: ((λ f, f <$> items) <$> fields))
    with ((λ f, f <$> items) <$> (f0 :: fields)).
  set (fs := f0 :: fields).
  replace (forallb _ _) with true; cycle 1.
  { symmetry. apply forallb_forall. intros a Ha.
    apply in_map_iff in Ha as (f & <- & _).
    rewrite !length_fmap. apply Nat.eqb_refl. }
  apply mapM_Some. rewrite length_fmap.
  apply Forall2_same_length_lookup_2.
  { by rewrite length_seq, length_fmap. }
  intros i j row Hj Hrow.
  apply lookup_seq in Hj as [-> Hi]. change (0 + i) with i.
  rewrite list_lookup_fmap in Hrow.
  destruct (items !! i) as [v|] eqn:Hv; [|done].
  injection Hrow as <-.
  apply mapM_Some.
  apply (Forall2_fmap_2 (λ f, f <$> items) (λ f : A -> B, f v)
           (λ a y, a !! i = Some y) fs fs).
  apply Forall_Forall2_diag, Forall_forall. intros f _. by rewrite list_lookup_fmap, Hv.
Qed.

End StackFacts.

(** ** The phases of the import *)

Module ImportFacts.
Import PyBytes PyFile Float Numpy Bpy Py Importer PointCloud StackFacts.
Local Open Scope py_scope.

Lemma unique_name_free (taken : string -> bool) (bound : nat) (name : string) :
  taken name = false -> unique_name taken bound name = name.
Proof. unfold unique_name. by intros ->. Qed.

Lemma in_map_None {A} (m : gmap string A) (name : string) :
  m !! name = None -> in_map m name = false.
Proof.
  intros H. unfold in_map. apply bool_decide_eq_false_2.
  rewrite H. by intros [? ?].
Qed.

(** After the first phase no object is called PointCloud. *)
Lemma remove_existing_done (w : world) :
  remove_existing w
  = Done tt (World (BlendData (meshes (bpy_data w))
                      (delete "PointCloud" (objects (bpy_data w))))
               (stdout w)).
Proof.
  unfold remove_existing, bind, call, objects_contains, in_map.
  case_bool_decide as Hin; [reflexivity|].
  unfold ret. destruct w as [[ms os] out]. simpl in *.
  rewrite delete_id; [done|].
  destruct (os !! "PointCloud") eqn:E; [|done]. destruct Hin. by eexists.
Qed.

Lemma report_done (v : item) (items : list item) (w : world) :
  report (v :: items) w
  = Done tt (World (bpy_data w)
               (stdout w ++ [Loaded (S (length items));
                             FirstPoint (x v) (y v) (z v);
                             FirstColor (red v) (green v) (blue v);
                             FirstVelocity (vx v) (vy v) (vz v)])).
Proof.
  unfold report, bind, print, index, or_raise, ret. simpl.
  by rewrite <- !(assoc_L (++)).
Qed.

Lemma report_empty (w : world) :
  report [] w = Raised IndexError (World (bpy_data w) (stdout w ++ [Loaded 0])).
Proof. reflexivity. Qed.

Lemma positions_stacked (items : list item) :
  stack_axis1 [x <$> items; y <$> items; z <$> items]
  = Some ((λ v, [x v; y v; z v]) <$> items).
Proof. by apply (stack_axis1_fields [x; y; z]). Qed.

Lemma as_vertex_rows (items : list item) :
  mapM as_vertex (tolist ((λ v, [x v; y v; z v]) <$> items))
  = Some (position_of <$> items).
Proof.
  unfold tolist. rewrite <- list_fmap_compose.
  apply mapM_Some.
  apply (Forall2_fmap_2 _ position_of (λ r p, as_vertex r = Some p)).
  by apply Forall_Forall2_diag, Forall_forall.
Qed.

Lemma link_new (obj mesh : string) (d : blend_data) :
  objects d !! obj = Some (Object mesh false) ->
  link obj d
  = Some (BlendData (meshes d) (<[obj := Object mesh true]> (objects d))).
Proof. intros H. unfold link. by rewrite H. Qed.

Lemma from_pydata_positions (name : string) (items : list item) (m : mesh)
    (d : blend_data) :
  meshes d !! name = Some m ->
  from_pydata name (tolist ((λ v, [x v; y v; z v]) <$> items)) d
  = Some (set_mesh name
            (Mesh (vertices m ++ (position_of <$> items)) (attributes m)) d).
Proof. intros H. unfold from_pydata. by rewrite H, as_vertex_rows. Qed.

Lemma attributes_new_free (mesh name : string) (ty : attribute_type)
    (m : Bpy.mesh) (d : blend_data) :
  meshes d !! mesh = Some m ->
  name ∉ (attributes m).*1 ->
  attributes_new mesh name ty d
  = Some (name,
          set_mesh mesh
            (Mesh (vertices m)
               (attributes m ++ [(name, zeros ty (length (vertices m)))]))
            d).
Proof.
  intros Hm Hfree. unfold attributes_new. rewrite Hm. cbn.
  rewrite unique_name_free; [done|]. by apply bool_decide_eq_false_2.
Qed.

Lemma set_attribute_last (attrs : list (string * attribute)) (name : string)
    (old new : attribute) (flat : list Z) :
  name ∉ attrs.*1 ->
  set_data old flat = Some new ->
  set_attribute (attrs ++ [(name, old)]) name flat
  = Some (attrs ++ [(name, new)]).
Proof.
  intros Hfree Hset. induction attrs as [|[n a] attrs IH]; cbn.
  - rewrite decide_True by done. by rewrite Hset.
  - cbn in Hfree. apply not_elem_of_cons in Hfree as [Hn Hfree].
    rewrite decide_False by done. by rewrite IH.
Qed.

Lemma foreach_set_last (mesh name : string) (vs : list (Z * Z * Z))
    (attrs : list (string * attribute)) (old new : attribute)
    (flat : list Z) (d : blend_data) :
  meshes d !! mesh = Some (Mesh vs (attrs ++ [(name, old)])) ->
  name ∉ attrs.*1 ->
  set_data old flat = Some new ->
  foreach_set mesh name flat d
  = Some (set_mesh mesh (Mesh vs (attrs ++ [(name, new)])) d).
Proof.
  intros Hm Hfree Hset. unfold foreach_set. rewrite Hm. cbn.
  by rewrite (set_attribute_last attrs name old new).
Qed.

#[local] Arguments stack_axis1 : simpl never.
#[local] Arguments from_pydata : simpl never.
#[local] Arguments attributes_new : simpl never.
#[local] Arguments foreach_set : simpl never.
#[local] Arguments link : simpl never.
#[local] Arguments unique_name : simpl never.
#[local] Arguments set_mesh : simpl never.
#[local] Arguments ravel : simpl never.
#[local] Arguments astype_float32 : simpl never.
#[local] Arguments div_255 : simpl never.
#[local] Arguments ones : simpl never.
#[local] Arguments f64_of_Z : simpl never.
#[local] Arguments f64_div : simpl never.
#[local] Arguments set_data : simpl never.
#[local] Arguments zeros : simpl never.

(** The second phase: a mesh under a name of its own, the object under
    the name PointCloud, linked to the scene, and the vertices. *)
Lemma create_mesh_done (items : list item) (d : blend_data)
    (out : list printed) :
  objects d !! "PointCloud" = None ->
  let mesh := (meshes_new "PointCloudMesh" d).1 in
  create_mesh items (World d out)
  = Done mesh
      (World (BlendData (<[mesh := Mesh (position_of <$> items) []]> (meshes d))
                (<["PointCloud" := Object mesh true]> (objects d)))
         out).
Proof.
  intros Hfree mesh.
  unfold create_mesh, bind, call, try_call_, try_call, or_raise, ret.
  cbn [meshes_new fst snd bpy_data stdout]. fold mesh.
  unfold objects_new. cbn [objects meshes].
  rewrite (unique_name_free _ _ "PointCloud") by by apply in_map_None.
  rewrite (link_new "PointCloud" mesh) by apply lookup_insert_eq.
  cbn. rewrite positions_stacked.
  rewrite (from_pydata_positions mesh items (Mesh [] []))
    by apply lookup_insert_eq.
  cbn. unfold set_mesh. cbn. by rewrite !insert_insert_eq.
Qed.

Lemma ones_fmap {A} (items : list A) :
  ones (length items) = (λ _, f64_of_Z 1) <$> items.
Proof. unfold ones. induction items as [|v items IH]; cbn; by f_equal. Qed.

Lemma colors_stacked (items : list item) :
  stack_axis1 [div_255 (red <$> items); div_255 (green <$> items);
               div_255 (blue <$> items); ones (length items)]
  = Some ((λ v, (λ f : item -> spec_float, f v)
                  <$> [λ v, f64_div (f64_of_Z (u8 (red v))) (f64_of_Z 255);
                       λ v, f64_div (f64_of_Z (u8 (green v))) (f64_of_Z 255);
                       λ v, f64_div (f64_of_Z (u8 (blue v))) (f64_of_Z 255);
                       λ _, f64_of_Z 1]) <$> items).
Proof.
  rewrite ones_fmap. unfold div_255. rewrite <- !list_fmap_compose.
  by rewrite <- stack_axis1_fields.
Qed.

Lemma colors_of_flat_rows {A} (r g b a : A -> Z) (items : list A) :
  let flat := concat ((λ v, [r v; g v; b v; a v]) <$> items) in
  length flat = 4 * length items
  ∧ colors_of_flat flat = (λ v, (r v, g v, b v, a v)) <$> items.
Proof.
  induction items as [|v items [IHlen IH]]; [done|]. split.
  - cbn [fmap list_fmap concat app length] in *. rewrite IHlen. lia.
  - cbn [fmap list_fmap concat app colors_of_flat] in *. by rewrite IH.
Qed.

Lemma colors_flat (items : list item) :
  let flat :=
    ravel (astype_float32
             <$> ((λ v, (λ f : item -> spec_float, f v)
                  <$> [λ v, f64_div (f64_of_Z (u8 (red v))) (f64_of_Z 255);
                       λ v, f64_div (f64_of_Z (u8 (green v))) (f64_of_Z 255);
                       λ v, f64_div (f64_of_Z (u8 (blue v))) (f64_of_Z 255);
                       λ _, f64_of_Z 1]) <$> items)) in
  length flat = 4 * length items ∧ colors_of_flat flat = color_of <$> items.
Proof.
  intros flat.
  assert (flat = concat ((λ v, [channel (red v); channel (green v);
                                channel (blue v); alpha]) <$> items)) as ->.
  { unfold flat, ravel. by rewrite <- list_fmap_compose. }
  apply (colors_of_flat_rows (λ v, channel (red v)) (λ v, channel (green v))
           (λ v, channel (blue v)) (λ _, alpha)).
Qed.

Lemma lookup_set_mesh (name : string) (m : mesh) (d : blend_data) :
  meshes (set_mesh name m d) !! name = Some m.
Proof. apply lookup_insert_eq. Qed.

Lemma set_mesh_twice (name : string) (m m' : mesh) (d : blend_data) :
  set_mesh name m (set_mesh name m' d) = set_mesh name m d.
Proof. unfold set_mesh. cbn. by rewrite insert_insert_eq. Qed.

#[local] Ltac not_a_name :=
  let H := fresh in
  cbn; intros H;
  repeat (apply elem_of_cons in H as [H|H]; [discriminate H|]);
  by apply elem_of_nil in H.

(** The third phase, on a mesh that has its vertices and no attribute. *)
Lemma add_attributes_done (mesh : string) (items : list item)
    (d : blend_data) (out : list printed) :
  meshes d !! mesh = Some (Mesh (position_of <$> items) []) ->
  add_attributes mesh items (World d out)
  = Done tt (World (set_mesh mesh (mesh_of items) d) out).
Proof.
  intros Hmesh. destruct (colors_flat items) as [Hlen Hcolors].
  assert (∀ n (vs : list Z), length vs = n ->
            set_data (zeros T_FLOAT n) vs = Some (FLOAT vs)) as Hfloat.
  { intros n vs <-. unfold set_data, zeros.
    rewrite length_replicate. by rewrite decide_True. }
  unfold add_attributes, bind, try_call_, try_call, or_raise, ret.
  unfold astype_float32_copy. cbn [bpy_data stdout].
  rewrite (attributes_new_free mesh "color" _ _ d Hmesh) by not_a_name.
  cbn. rewrite colors_stacked.
  erewrite (foreach_set_last mesh "color" _ []);
    [|apply lookup_set_mesh|not_a_name|]; cycle 1.
  { unfold set_data, zeros. cbn [vertices].
    rewrite length_replicate, length_fmap.
    rewrite decide_True by apply Hlen. by rewrite Hcolors. }
  cbn. rewrite set_mesh_twice. unfold bind. cbn.
  erewrite (attributes_new_free mesh "vx");
    [|apply lookup_set_mesh|not_a_name].
  cbn. rewrite set_mesh_twice.
  erewrite (foreach_set_last mesh "vx" _ [_]);
    [|apply lookup_set_mesh|not_a_name|apply Hfloat; by rewrite !length_fmap].
  cbn. rewrite set_mesh_twice.
  erewrite (attributes_new_free mesh "vy");
    [|apply lookup_set_mesh|not_a_name].
  cbn. rewrite set_mesh_twice.
  erewrite (foreach_set_last mesh "vy" _ [_; _]);
    [|apply lookup_set_mesh|not_a_name|apply Hfloat; by rewrite !length_fmap].
  cbn. rewrite set_mesh_twice.
  erewrite (attributes_new_free mesh "vz");
    [|apply lookup_set_mesh|not_a_name].
  cbn. rewrite set_mesh_twice.
  erewrite (foreach_set_last mesh "vz" _ [_; _; _]);
    [|apply lookup_set_mesh|not_a_name|apply Hfloat; by rewrite !length_fmap].
  cbn. by rewrite set_mesh_twice.
Qed.

Lemma read_points_done (fuel : nat) (fs : gmap string bytes)
    (contents : bytes) (header_end : nat) (w : world) :
  fs !! ply_path = Some contents ->
  scan_header fuel [] (open_rb contents) = Some header_end ->
  read_points fuel fs w
  = Done (fromfile (seek (open_rb contents) header_end)) w.
Proof.
  intros Hfs Hscan. unfold read_points, open, bind, find_header_end.
  rewrite Hfs. cbn. by rewrite Hscan.
Qed.

Lemma script_done (fuel : nat) (fs : gmap string bytes) (contents : bytes)
    (header_end : nat) (v : item) (items : list item) (w : world) :
  fs !! ply_path = Some contents ->
  scan_header fuel [] (open_rb contents) = Some header_end ->
  fromfile (seek (open_rb contents) header_end) = v :: items ->
  script fuel fs w = Done tt (imported w (v :: items) v).
Proof.
  intros Hfs Hscan Hitems. unfold script.
  unfold bind at 1. rewrite remove_existing_done.
  unfold bind at 1. rewrite (read_points_done _ _ _ _ _ Hfs Hscan), Hitems.
  unfold bind at 1. rewrite report_done. cbn [bpy_data stdout].
  unfold bind at 1.
  rewrite create_mesh_done by apply lookup_delete_eq.
  cbn [meshes_new fst meshes objects].
  unfold bind at 1.
  rewrite add_attributes_done by apply lookup_insert_eq.
  unfold bind, print, imported, set_mesh. cbn.
  rewrite insert_insert_eq, insert_delete_eq.
  by rewrite <- !(assoc_L (++)).
Qed.

(** A run with no item in the file stops at the first indexing, after
    the removal of the earlier object. *)
Lemma script_without_items (fuel : nat) (fs : gmap string bytes)
    (contents : bytes) (header_end : nat) (w : world) :
  fs !! ply_path = Some contents ->
  scan_header fuel [] (open_rb contents) = Some header_end ->
  fromfile (seek (open_rb contents) header_end) = [] ->
  script fuel fs w
  = Raised IndexError
      (World (BlendData (meshes (bpy_data w))
                (delete "PointCloud" (objects (bpy_data w))))
         (stdout w ++ [Loaded 0])).
Proof.
  intros Hfs Hscan Hitems. unfold script.
  unfold bind at 1. rewrite remove_existing_done.
  unfold bind at 1. rewrite (read_points_done _ _ _ _ _ Hfs Hscan), Hitems.
  unfold bind at 1. by rewrite report_empty.
Qed.

(** The runs that end normally are those of [script_done]. *)
Lemma script_done_inv (fuel : nat) (fs : gmap string bytes) (w w' : world) :
  script fuel fs w = Done tt w' ->
  ∃ (contents : bytes) (header_end : nat) (v : item) (items : list item),
    fs !! ply_path = Some contents
    ∧ scan_header fuel [] (open_rb contents) = Some header_end
    ∧ fromfile (seek (open_rb contents) header_end) = v :: items.
Proof.
  intros Hrun.
  destruct (fs !! ply_path) as [contents|] eqn:Hfs; cycle 1.
  { unfold script in Hrun. unfold bind at 1 in Hrun.
    rewrite remove_existing_done in Hrun.
    unfold bind at 1, read_points, bind at 1, open in Hrun.
    by rewrite Hfs in Hrun. }
  destruct (scan_header fuel [] (open_rb contents)) as [header_end|] eqn:Hscan;
    cycle 1.
  { unfold script in Hrun. unfold bind at 1 in Hrun.
    rewrite remove_existing_done in Hrun.
    unfold bind at 1 in Hrun.
    by rewrite (HeaderFacts.read_points_diverges _ _ _ _ Hfs Hscan) in Hrun. }
  destruct (fromfile (seek (open_rb contents) header_end)) as [|v items]
    eqn:Hitems.
  { by rewrite (script_without_items _ _ _ _ _ Hfs Hscan Hitems) in Hrun. }
  by exists contents, header_end, v, items.
Qed.

End ImportFacts.

(** ** The import script: header scan and record parsing *)

Module ImportTheorems.
Import PyBytes PyFile PyFileFacts Float Numpy NumpyFacts Bpy Py Importer.
Import PointCloud HeaderFacts ImportFacts.

#[local] Ltac no_newline :=
  let H := fresh in
  intros H;
  repeat (apply elem_of_cons in H as [H|H]; [discriminate H|]);
  by apply elem_of_nil in H.

Lemma header_lines_complete : Forall is_line header_lines.
Proof.
  repeat constructor.
  - exists (b "ply"). split; [reflexivity|no_newline].
  - exists (b "format binary_little_endian 1.0"). split; [reflexivity|no_newline].
Defined.

Lemma header_lines_not_sentinel :
  Forall (λ l, strip l ≠ end_header) header_lines.
Proof. repeat constructor; discriminate. Defined.

Lemma sentinel_line_complete : is_line sentinel_line.
Proof. exists (b "end_header"). split; [reflexivity|no_newline]. Defined.

Lemma scenario_items_valid : Forall valid_item [item1; item2; item3].
Proof. repeat constructor; unfold is_word32; simpl; lia. Defined.

(** C3: when the lines before the sentinel line are complete lines that do
    not strip to [end_header], and the sentinel line is a complete line that
    does, the header scan returns the offset of the first byte after the
    newline of the sentinel line, whatever follows it. The loop needs one
    turn per line. *)
Theorem scan_header_returns_offset_after_sentinel
    (before : list bytes) (sentinel rest : bytes) (fuel : nat) :
  Forall is_line before ->
  Forall (λ l, strip l ≠ end_header) before ->
  is_line sentinel ->
  strip sentinel = end_header ->
  length before < fuel ->
  scan_header fuel [] (open_rb (concat before ++ sentinel ++ rest))
  = Some (length (concat before ++ sentinel)).
Proof.
  intros Hlines Hnot Hsent Hstrip Hfuel.
  exact (scan_header_found before sentinel rest Hlines Hnot Hsent Hstrip
           [] [] fuel empty_line_not_sentinel Hfuel).
Qed.

Lemma scan_header_returns_offset_after_sentinel_witness :
  scan_header 3 []
    (open_rb (concat header_lines ++ sentinel_line
              ++ concat (pack <$> [item1; item2; item3])))
  = Some (length (concat header_lines ++ sentinel_line)).
Proof.
  apply scan_header_returns_offset_after_sentinel.
  - exact header_lines_complete.
  - exact header_lines_not_sentinel.
  - exact sentinel_line_complete.
  - reflexivity.
  - simpl. lia.
Defined.

(** C2 as stated fails: on a file whose header has no sentinel line the
    scan raises nothing; it is still running after any number of turns. *)
Lemma unterminated_header_raises_nothing :
  Forall (λ l, strip l ≠ end_header) (split_lines unterminated)
  ∧ ∀ fuel, read_points fuel {[ply_path := unterminated]} empty_world
            = OutOfFuel.
Proof.
  assert (Forall (λ l, strip l ≠ end_header) (split_lines unterminated)) as H.
  { repeat constructor; discriminate. }
  split; [exact H|]. intros fuel.
  apply (read_points_diverges fuel _ unterminated).
  - apply lookup_singleton_eq.
  - apply scan_header_never; [apply empty_line_not_sentinel|exact H].
Qed.

(** C2, amended: when no line of the file strips to [end_header], the
    header scan never ends: for every number of turns the loop is still
    running, so that no offset is returned, nothing is raised, and the
    script does not get past the scan. *)
Theorem scan_header_without_sentinel_never_ends
    (contents : bytes) (fuel : nat) :
  Forall (λ l, strip l ≠ end_header) (split_lines contents) ->
  scan_header fuel [] (open_rb contents) = None
  ∧ ∀ (fs : gmap string bytes) (w : world),
      fs !! ply_path = Some contents -> script fuel fs w = OutOfFuel.
Proof.
  intros Hlines.
  assert (scan_header fuel [] (open_rb contents) = None) as Hscan.
  { apply scan_header_never; [apply empty_line_not_sentinel|exact Hlines]. }
  split; [exact Hscan|]. intros fs w Hfs.
  unfold script. unfold bind at 1. rewrite remove_existing_done.
  unfold bind at 1. by rewrite (read_points_diverges _ _ _ _ Hfs Hscan).
Qed.

Lemma scan_header_without_sentinel_never_ends_witness :
  scan_header 100 [] (open_rb unterminated) = None
  ∧ ∀ (fs : gmap string bytes) (w : world),
      fs !! ply_path = Some unterminated -> script 100 fs w = OutOfFuel.
Proof.
  apply scan_header_without_sentinel_never_ends.
  repeat constructor; discriminate.
Defined.

(** C1 as stated fails: with one stray byte after a whole record the parser
    returns the record and raises nothing. *)
Lemma misaligned_file_is_truncated :
  length (drop (length header) misaligned) mod 27 ≠ 0
  ∧ read_points 3 {[ply_path := misaligned]} empty_world
    = Done [item1] empty_world.
Proof.
  split; [vm_compute; discriminate|].
  rewrite (read_points_done 3 _ misaligned (length header)).
  - reflexivity.
  - apply lookup_singleton_eq.
  - reflexivity.
Qed.

(** C1, amended: whatever the bytes after the header are, the record
    parser raises nothing and returns exactly as many records as there are
    whole groups of 27 bytes, record [i] being made of the 27 bytes from
    offset [27 * i] after the header; these bytes are inside the file, and
    the bytes after the last whole group, if any, are left unread. *)
Theorem read_points_drops_trailing_bytes
    (fuel : nat) (fs : gmap string bytes) (contents : bytes)
    (header_end : nat) (w : world) :
  fs !! ply_path = Some contents ->
  scan_header fuel [] (open_rb contents) = Some header_end ->
  let body := drop header_end contents in
  ∃ items : list item,
    read_points fuel fs w = Done items w
    ∧ length items = length body / 27
    ∧ ∀ i, i < length items ->
        27 * i + 27 <= length body
        ∧ items !! i = unpack (take 27 (drop (27 * i) body)).
Proof.
  intros Hfs Hscan body.
  exists (fromfile (seek (open_rb contents) header_end)).
  split; [by apply read_points_done|].
  destruct (fromfile_chunks (seek (open_rb contents) header_end))
    as [Hlen Hitem].
  change (remaining (seek (open_rb contents) header_end)) with body in *.
  split; [exact Hlen|].
  intros i Hi. rewrite Hlen in Hi. split; [|by apply Hitem].
  pose proof (Nat.Div0.mul_div_le (length body) 27). lia.
Qed.

Lemma read_points_drops_trailing_bytes_witness :
  let body := drop (length header) misaligned in
  ∃ items : list item,
    read_points 3 {[ply_path := misaligned]} empty_world
    = Done items empty_world
    ∧ length items = length body / 27
    ∧ ∀ i, i < length items ->
        27 * i + 27 <= length body
        ∧ items !! i = unpack (take 27 (drop (27 * i) body)).
Proof.
  apply (read_points_drops_trailing_bytes 3 _ misaligned (length header)).
  - apply lookup_singleton_eq.
  - reflexivity.
Defined.

(** C4: a file made of header lines, the sentinel line and [n] packed
    records is read back as exactly these [n] records, field by field and
    in order. *)
Theorem read_points_round_trip
    (before : list bytes) (sentinel : bytes) (items : list item)
    (fuel : nat) (fs : gmap string bytes) (w : world) :
  Forall is_line before ->
  Forall (λ l, strip l ≠ end_header) before ->
  is_line sentinel ->
  strip sentinel = end_header ->
  Forall valid_item items ->
  fs !! ply_path = Some (concat before ++ sentinel ++ concat (pack <$> items)) ->
  length before < fuel ->
  read_points fuel fs w = Done items w.
Proof.
  intros Hlines Hnot Hsent Hstrip Hvalid Hfs Hfuel.
  pose proof (scan_header_found before sentinel (concat (pack <$> items))
                Hlines Hnot Hsent Hstrip [] [] fuel
                empty_line_not_sentinel Hfuel) as Hscan.
  rewrite (read_points_done _ _ _ _ _ Hfs Hscan). f_equal.
  apply (fromfile_packed _ items []); [|done|simpl; lia].
  unfold remaining, seek, open_rb. cbn [content position app length].
  rewrite (assoc_L (++)), drop_app_length. by rewrite (right_id_L [] (++)).
Qed.

Lemma read_points_round_trip_witness :
  length [item1; item2; item3] = 3
  ∧ read_points 3 {[ply_path := scenario]} empty_world
    = Done [item1; item2; item3] empty_world.
Proof.
  split; [reflexivity|].
  apply (read_points_round_trip header_lines sentinel_line).
  - exact header_lines_complete.
  - exact header_lines_not_sentinel.
  - exact sentinel_line_complete.
  - reflexivity.
  - exact scenario_items_valid.
  - unfold scenario, header. rewrite <- (assoc_L (++)).
    apply lookup_singleton_eq.
  - simpl. lia.
Defined.

End ImportTheorems.

(** ** Coordinates through Python floats *)

Module FloatFacts.
Import Float PointCloud.

Lemma quieted_nan_is_nan (w : Z) :
  is_nan32 w = true -> f32_of_bits (Z.lor w (2 ^ 22)) = f32_of_bits w.
Proof.
  unfold is_nan32, f32_of_bits. intros Hnan.
  apply andb_prop in Hnan as [Hexp Hfrac].
  apply negb_true_iff in Hfrac.
  rewrite <- !Z.shiftr_div_pow2, <- !Z.land_ones in * by lia.
  rewrite Z.shiftr_lor, !Z.land_lor_distr_l.
  change (Z.shiftr (2 ^ 22) 23) with 0%Z.
  change (Z.land 0 (Z.ones 8)) with 0%Z.
  change (Z.land (2 ^ 22) (Z.ones 23)) with (2 ^ 22)%Z.
  rewrite Z.lor_0_r, Hfrac.
  apply Z.eqb_eq in Hexp. rewrite Hexp. cbn [Z.eqb].
  destruct (Z.eqb_spec (Z.lor (Z.land w (Z.ones 23)) (2 ^ 22)) 0) as [H0|_];
    [|done].
  apply Z.lor_eq_0_iff in H0 as [_ H0]. discriminate H0.
Qed.

Lemma float32_via_float64_stored (w : Z) : stored_as (float32_via_float64 w) w.
Proof.
  unfold stored_as, float32_via_float64.
  destruct (is_nan32 w) eqn:Hnan.
  - split; [done|]. split; [by apply quieted_nan_is_nan|done].
  - done.
Qed.

End FloatFacts.

(** ** The import script: the point cloud in Blender *)

Module PointCloudTheorems.
Import PyBytes PyFile Float Numpy Bpy Py Importer PointCloud ImportFacts.

Lemma channel_near_quotient (c : byte) : near_quotient (channel c) c = true.
Proof. destruct c; vm_compute; reflexivity. Qed.

Lemma channel_derived (c : byte) : derived_channel (channel c) c.
Proof.
  split; [reflexivity|]. split; [apply channel_near_quotient|].
  split; intros ->; vm_compute; reflexivity.
Qed.

Lemma alpha_is_one : f32_of_bits alpha = SFone 24 128.
Proof. vm_compute. reflexivity. Qed.

Lemma attribute_of_point_cloud (items : list item) :
  attribute_of (mesh_of items) "color" = Some (FLOAT_COLOR (color_of <$> items))
  ∧ attribute_of (mesh_of items) "vx" = Some (FLOAT (vx <$> items))
  ∧ attribute_of (mesh_of items) "vy" = Some (FLOAT (vy <$> items))
  ∧ attribute_of (mesh_of items) "vz" = Some (FLOAT (vz <$> items)).
Proof. repeat split; reflexivity. Qed.

(** C5: after an import, entry [i] of the colour attribute holds, for each
    channel of record [i], the byte divided by 255 (computed in binary64 and
    rounded to binary32, within a relative distance of [2 ^ -24] of the
    quotient), exactly 0.0 for the byte 0 and exactly 1.0 for the byte 255,
    and an alpha of exactly 1.0. *)
Theorem color_attribute_divides_by_255
    (fuel : nat) (fs : gmap string bytes) (contents : bytes)
    (header_end : nat) (v : item) (items : list item) (w : world) :
  fs !! ply_path = Some contents ->
  scan_header fuel [] (open_rb contents) = Some header_end ->
  fromfile (seek (open_rb contents) header_end) = v :: items ->
  ∃ (w' : world) (mesh : string) (m : Bpy.mesh) (colors : list (Z * Z * Z * Z)),
    script fuel fs w = Done tt w'
    ∧ objects (bpy_data w') !! "PointCloud" = Some (Object mesh true)
    ∧ meshes (bpy_data w') !! mesh = Some m
    ∧ attribute_of m "color" = Some (FLOAT_COLOR colors)
    ∧ ∀ (i : nat) (u : item),
        (v :: items) !! i = Some u ->
        ∃ r g b a : Z,
          colors !! i = Some (r, g, b, a)
          ∧ derived_channel r (red u)
          ∧ derived_channel g (green u)
          ∧ derived_channel b (blue u)
          ∧ f32_of_bits a = SFone 24 128.
Proof.
  intros Hfs Hscan Hitems.
  exists (imported w (v :: items) v),
    (meshes_new "PointCloudMesh" (bpy_data w)).1,
    (mesh_of (v :: items)), (color_of <$> (v :: items)).
  split; [by apply (script_done fuel fs contents header_end)|].
  split; [apply lookup_insert_eq|].
  split; [apply lookup_insert_eq|].
  split; [apply attribute_of_point_cloud|].
  intros i u Hu.
  exists (channel (red u)), (channel (green u)), (channel (blue u)), alpha.
  split; [by rewrite list_lookup_fmap, Hu|].
  repeat (split; [apply channel_derived|]). apply alpha_is_one.
Qed.

Lemma color_attribute_divides_by_255_witness :
  ∃ (w' : world) (mesh : string) (m : Bpy.mesh) (colors : list (Z * Z * Z * Z)),
    script 3 {[ply_path := scenario]} empty_world = Done tt w'
    ∧ objects (bpy_data w') !! "PointCloud" = Some (Object mesh true)
    ∧ meshes (bpy_data w') !! mesh = Some m
    ∧ attribute_of m "color" = Some (FLOAT_COLOR colors)
    ∧ ∀ (i : nat) (u : item),
        [item1; item2; item3] !! i = Some u ->
        ∃ r g b a : Z,
          colors !! i = Some (r, g, b, a)
          ∧ derived_channel r (red u)
          ∧ derived_channel g (green u)
          ∧ derived_channel b (blue u)
          ∧ f32_of_bits a = SFone 24 128.
Proof.
  apply (color_attribute_divides_by_255 3 _ scenario (length header)).
  - apply lookup_singleton_eq.
  - reflexivity.
  - reflexivity.
Defined.

(** C6: an import that finds the header and at least one record first
    leaves no object called PointCloud, and then ends with one new object
    of that very name, linked to the scene, every other object being as
    before. The mesh of the object has [n] vertices and, under the names
    color, vx, vy and vz, four attributes with [n] entries each. Entry [i]
    of the vertices and of every attribute comes from record [i]: the
    coordinates as the numbers of the record (bit for bit unless a
    coordinate is a NaN, which comes out of the Python floats quiet), the
    colour as the channels divided by 255 with alpha 1.0, and the
    velocities bit for bit. *)
Theorem import_builds_point_cloud
    (fuel : nat) (fs : gmap string bytes) (contents : bytes)
    (header_end : nat) (v : item) (items : list item) (w : world) :
  fs !! ply_path = Some contents ->
  scan_header fuel [] (open_rb contents) = Some header_end ->
  fromfile (seek (open_rb contents) header_end) = v :: items ->
  let n := length (v :: items) in
  ∃ (w1 w' : world) (mesh : string) (m : Bpy.mesh)
    (colors : list (Z * Z * Z * Z)) (vxs vys vzs : list Z),
    remove_existing w = Done tt w1
    ∧ objects (bpy_data w1) !! "PointCloud" = None
    ∧ script fuel fs w = Done tt w'
    ∧ objects (bpy_data w')
      = <["PointCloud" := Object mesh true]> (objects (bpy_data w))
    ∧ meshes (bpy_data w') !! mesh = Some m
    ∧ length (vertices m) = n
    ∧ attribute_of m "color" = Some (FLOAT_COLOR colors)
    ∧ attribute_of m "vx" = Some (FLOAT vxs)
    ∧ attribute_of m "vy" = Some (FLOAT vys)
    ∧ attribute_of m "vz" = Some (FLOAT vzs)
    ∧ length colors = n ∧ length vxs = n ∧ length vys = n ∧ length vzs = n
    ∧ ∀ (i : nat) (u : item),
        (v :: items) !! i = Some u ->
        (∃ px py pz : Z,
           vertices m !! i = Some (px, py, pz)
           ∧ stored_as px (x u) ∧ stored_as py (y u) ∧ stored_as pz (z u))
        ∧ colors !! i
          = Some (channel (red u), channel (green u), channel (blue u), alpha)
        ∧ vxs !! i = Some (vx u)
        ∧ vys !! i = Some (vy u)
        ∧ vzs !! i = Some (vz u).
Proof.
  intros Hfs Hscan Hitems n.
  destruct (attribute_of_point_cloud (v :: items)) as (Hc & Hvx & Hvy & Hvz).
  eexists _, (imported w (v :: items) v),
    (meshes_new "PointCloudMesh" (bpy_data w)).1,
    (mesh_of (v :: items)), _, _, _, _.
  split; [apply remove_existing_done|].
  split; [apply lookup_delete_eq|].
  split; [by apply (script_done fuel fs contents header_end)|].
  split; [reflexivity|].
  split; [apply lookup_insert_eq|].
  split; [apply length_fmap|].
  split; [exact Hc|]. split; [exact Hvx|].
  split; [exact Hvy|]. split; [exact Hvz|].
  repeat (split; [apply length_fmap|]).
  intros i u Hu. cbn [mesh_of vertices].
  rewrite !list_lookup_fmap, Hu. split; [|done].
  eexists _, _, _. split; [reflexivity|].
  repeat split; apply FloatFacts.float32_via_float64_stored.
Qed.

Lemma import_builds_point_cloud_witness :
  ∃ (w1 w' : world) (mesh : string) (m : Bpy.mesh)
    (colors : list (Z * Z * Z * Z)) (vxs vys vzs : list Z),
    remove_existing earlier_world = Done tt w1
    ∧ objects (bpy_data w1) !! "PointCloud" = None
    ∧ script 3 {[ply_path := scenario]} earlier_world = Done tt w'
    ∧ objects (bpy_data w')
      = <["PointCloud" := Object mesh true]> (objects (bpy_data earlier_world))
    ∧ meshes (bpy_data w') !! mesh = Some m
    ∧ length (vertices m) = 3
    ∧ attribute_of m "color" = Some (FLOAT_COLOR colors)
    ∧ attribute_of m "vx" = Some (FLOAT vxs)
    ∧ attribute_of m "vy" = Some (FLOAT vys)
    ∧ attribute_of m "vz" = Some (FLOAT vzs)
    ∧ length colors = 3 ∧ length vxs = 3 ∧ length vys = 3 ∧ length vzs = 3
    ∧ ∀ (i : nat) (u : item),
        [item1; item2; item3] !! i = Some u ->
        (∃ px py pz : Z,
           vertices m !! i = Some (px, py, pz)
           ∧ stored_as px (x u) ∧ stored_as py (y u) ∧ stored_as pz (z u))
        ∧ colors !! i
          = Some (channel (red u), channel (green u), channel (blue u), alpha)
        ∧ vxs !! i = Some (vx u)
        ∧ vys !! i = Some (vy u)
        ∧ vzs !! i = Some (vz u).
Proof.
  apply (import_builds_point_cloud 3 _ scenario (length header)
           item1 [item2; item3] earlier_world).
  - apply lookup_singleton_eq.
  - reflexivity.
  - reflexivity.
Defined.

End PointCloudTheorems.

(** ** The inspector script *)

Module InspectorFacts.
Import Py Inspector.
Local Open Scope py_scope.

Section Script.
Context {V D RE : Type} (int : string -> option Z).
Implicit Types (fs : string -> gmap string (element V D) + RE).
Implicit Types (w : world V D) (vertex : element V D).

Lemma for_each_print (l : list V) w :
  for_each l (λ v, print (VertexLine v)) w
  = Done (E := exn RE) tt (World (stdout w ++ (VertexLine <$> l)) (opened w)).
Proof.
  revert w. induction l as [|v l IH]; intros [out files]; cbn.
  - unfold ret. by rewrite (right_id_L [] (++)).
  - unfold bind, print. cbn. rewrite IH. cbn. by rewrite <- (assoc_L (++)).
Qed.

Lemma vertex_lines_app (out out' : list (printed V D)) :
  vertex_lines (out ++ out') = vertex_lines out ++ vertex_lines out'.
Proof. apply omap_app. Qed.

Lemma vertex_lines_fmap (l : list V) :
  vertex_lines (D := D) (VertexLine <$> l) = l.
Proof. induction l as [|v l IH]; cbn; by f_equal. Qed.

Lemma vertex_lines_listing (filename : string) vertex (N : Z) :
  vertex_lines (stdout (listing filename vertex N))
  = slice_to (data vertex) N.
Proof. unfold listing. cbn [stdout]. rewrite vertex_lines_app. apply vertex_lines_fmap. Qed.

(** The run up to the end, for the count the arguments ask for. *)
Lemma main_lists fs (prog filename : string) (args : list string)
    (ply : gmap string (element V D)) vertex (N : Z) :
  requests int args N ->
  fs filename = inl ply ->
  ply !! "vertex" = Some vertex ->
  main int fs (prog :: filename :: args) start
  = Done tt (listing filename vertex N).
Proof.
  intros Hargs Hfs Hvertex. unfold main, start.
  unfold bind at 1. rewrite bool_decide_eq_false_2 by (cbn; lia).
  unfold ret at 1. unfold bind at 1. cbn [index lookup list_lookup or_raise].
  unfold ret at 1. unfold bind at 1.
  assert ((if bool_decide (2 < length (prog :: filename :: args))
           then arg <- index (prog :: filename :: args) 2;;
                or_raise ValueError (int arg)
           else ret 5%Z) (World [] [])
          = Done (W := world V D) (E := exn RE) N (World [] [])) as ->.
  { destruct args as [|arg rest]; cbn in Hargs.
    - rewrite bool_decide_eq_false_2 by (cbn; lia). by subst N.
    - rewrite bool_decide_eq_true_2 by (cbn; lia).
      unfold bind, index. cbn. by rewrite Hargs. }
  unfold bind at 1, print at 1. cbn [stdout opened app].
  unfold bind at 1, PlyData_read. rewrite Hfs. cbn [stdout opened app].
  unfold bind at 1, print at 1. cbn [stdout opened app].
  unfold bind at 1, getitem. rewrite Hvertex. cbn [or_raise]. unfold ret at 1.
  unfold bind at 1, print at 1. cbn [stdout opened app].
  unfold bind at 1, print at 1. cbn [stdout opened app].
  by rewrite for_each_print.
Qed.

End Script.

Lemma slice_to_nonneg {A} (l : list A) (N : Z) :
  (0 <= N)%Z -> slice_to l N = take (Z.to_nat N) l.
Proof.
  intros HN. unfold slice_to.
  destruct (Z.ltb_spec N 0) as [|_]; [lia|].
  destruct (Z.le_ge_cases N (Z.of_nat (length l))) as [Hle|Hge].
  - by rewrite Z.min_l.
  - rewrite Z.min_r by done. rewrite Nat2Z.id.
    rewrite !take_ge by lia. done.
Qed.

Lemma slice_to_beyond {A} (l : list A) (N : Z) :
  (Z.of_nat (length l) < N)%Z -> slice_to l N = l.
Proof. intros HN. rewrite slice_to_nonneg by lia. apply take_ge. lia. Qed.

Lemma slice_to_negative {A} (l : list A) (N : Z) :
  (N < 0)%Z -> slice_to l N = take (length l - Z.to_nat (- N)) l.
Proof.
  intros HN. unfold slice_to.
  destruct (Z.ltb_spec N 0) as [_|]; [|lia]. f_equal. lia.
Qed.

End InspectorFacts.

Module InspectorTheorems.
Import Py Inspector InspectorFacts.
Local Open Scope py_scope.

Section Script.
Context {V D RE : Type} (int : string -> option Z).
Implicit Types (fs : string -> gmap string (element V D) + RE).
Implicit Types (vertex : element V D).

(** C7: without a file name argument the inspector prints the usage
    message and nothing else, opens no file, and exits with status 1. *)
Theorem missing_filename_prints_usage fs (argv : list string) :
  length argv < 2 ->
  main int fs argv start = Raised (SystemExit 1) (World [Usage] [])
  ∧ exit_status (main int fs argv start) = Some 1%Z.
Proof.
  intros Hlen.
  assert (main int fs argv start = Raised (SystemExit 1) (World [Usage] [])) as ->.
  { unfold main. unfold bind at 1. by rewrite bool_decide_eq_true_2. }
  done.
Qed.

(** C8: on a file that is read and has a vertex element, with a requested
    count [N] that is not negative (5 when there is no second argument),
    the inspector ends normally and the vertex lines it prints are the
    first [N] vertices, one line each, in the order of the file. *)
Theorem prints_first_vertices fs (prog filename : string) (args : list string)
    (ply : gmap string (element V D)) vertex (N : Z) :
  requests int args N ->
  (0 <= N)%Z ->
  fs filename = inl ply ->
  ply !! "vertex" = Some vertex ->
  ∃ w : world V D,
    main int fs (prog :: filename :: args) start = Done tt w
    ∧ vertex_lines (stdout w) = take (Z.to_nat N) (data vertex)
    ∧ stdout w
      = [Reading filename; VertexDataTypeHeading; DType (dtype vertex);
         FirstVerticesHeading N]
        ++ (VertexLine <$> take (Z.to_nat N) (data vertex)).
Proof.
  intros Hargs HN Hfs Hvertex. exists (listing filename vertex N).
  split; [by apply (main_lists int fs prog filename args ply)|].
  rewrite vertex_lines_listing. unfold listing. cbn [stdout].
  by rewrite slice_to_nonneg.
Qed.

(** C9: a second argument that [int] rejects makes the inspector end with
    an uncaught [ValueError] before anything is printed or opened; one
    that [int] accepts is passed to the slice as it is, whatever its sign. *)
Theorem count_argument_is_converted_not_validated fs
    (prog filename arg : string) (rest : list string) :
  (int arg = None ->
   main int fs (prog :: filename :: arg :: rest) start
   = Raised ValueError (World [] []))
  ∧ (∀ (N : Z) (ply : gmap string (element V D)) vertex,
       int arg = Some N ->
       fs filename = inl ply ->
       ply !! "vertex" = Some vertex ->
       main int fs (prog :: filename :: arg :: rest) start
       = Done tt (listing filename vertex N)
       ∧ vertex_lines (stdout (listing filename vertex N))
         = slice_to (data vertex) N).
Proof.
  split.
  - intros Hint. unfold main, start.
    unfold bind at 1. rewrite bool_decide_eq_false_2 by (cbn; lia).
    unfold ret at 1. unfold bind at 1. cbn [index lookup list_lookup or_raise].
    unfold ret at 1. unfold bind at 1.
    rewrite bool_decide_eq_true_2 by (cbn; lia).
    unfold bind at 1. cbn [index lookup list_lookup or_raise].
    unfold ret at 1. by rewrite Hint.
  - intros N ply vertex Hint Hfs Hvertex.
    split; [|apply vertex_lines_listing].
    by apply (main_lists int fs prog filename (arg :: rest) ply).
Qed.

(** C10: with a requested count larger than the number [n] of vertices the
    inspector ends normally, with exit status 0, and prints exactly the
    [n] vertex lines. *)
Theorem oversized_count_prints_all fs (prog filename : string)
    (args : list string) (ply : gmap string (element V D)) vertex (N : Z) :
  requests int args N ->
  (Z.of_nat (length (data vertex)) < N)%Z ->
  fs filename = inl ply ->
  ply !! "vertex" = Some vertex ->
  ∃ w : world V D,
    main int fs (prog :: filename :: args) start = Done tt w
    ∧ exit_status (main int fs (prog :: filename :: args) start) = Some 0%Z
    ∧ vertex_lines (stdout w) = data vertex
    ∧ length (vertex_lines (stdout w)) = length (data vertex).
Proof.
  intros Hargs HN Hfs Hvertex. exists (listing filename vertex N).
  rewrite (main_lists int fs prog filename args ply vertex N) by done.
  rewrite vertex_lines_listing, slice_to_beyond by done. done.
Qed.

End Script.

Lemma missing_filename_prints_usage_witness :
  main PyInt.int one_file ["plyreaed.py"] start = Raised (SystemExit 1) (World [Usage] [])
  ∧ exit_status (main PyInt.int one_file ["plyreaed.py"] start) = Some 1%Z.
Proof. apply (missing_filename_prints_usage PyInt.int). simpl. lia. Defined.

Lemma prints_first_vertices_witness :
  ∃ w,
    main PyInt.int one_file ["plyreaed.py"; "ten.ply"; "2"] start = Done tt w
    ∧ vertex_lines (stdout w) = take 2 ten_vertices
    ∧ stdout w
      = [Reading "ten.ply"; VertexDataTypeHeading; DType Numpy.dt;
         FirstVerticesHeading 2]
        ++ (VertexLine <$> take 2 ten_vertices).
Proof.
  apply (prints_first_vertices PyInt.int one_file "plyreaed.py" "ten.ply" ["2"]
           {["vertex" := ten]} ten 2).
  - reflexivity.
  - lia.
  - reflexivity.
  - reflexivity.
Defined.

Lemma count_argument_is_converted_not_validated_witness :
  main PyInt.int one_file ["plyreaed.py"; "ten.ply"; "two"] start
  = Raised ValueError (World [] [])
  ∧ main PyInt.int one_file ["plyreaed.py"; "ten.ply"; "-3"] start
    = Done tt (listing "ten.ply" ten (-3))
  ∧ vertex_lines (stdout (listing "ten.ply" ten (-3))) = take 7 ten_vertices
  ∧ main PyInt.int one_file ["plyreaed.py"; "ten.ply"; "0"] start
    = Done tt (listing "ten.ply" ten 0)
  ∧ vertex_lines (stdout (listing "ten.ply" ten 0)) = [].
Proof.
  split.
  - apply (count_argument_is_converted_not_validated PyInt.int one_file). reflexivity.
  - pose proof
      (proj2 (count_argument_is_converted_not_validated PyInt.int one_file
                "plyreaed.py" "ten.ply" "-3" [])
         (-3)%Z {["vertex" := ten]} ten eq_refl eq_refl eq_refl) as [H1 H2].
    pose proof
      (proj2 (count_argument_is_converted_not_validated PyInt.int one_file
                "plyreaed.py" "ten.ply" "0" [])
         0%Z {["vertex" := ten]} ten eq_refl eq_refl eq_refl) as [H3 H4].
    split; [exact H1|]. split; [exact H2|]. split; [exact H3|exact H4].
Defined.

Lemma oversized_count_prints_all_witness :
  ∃ w,
    main PyInt.int one_file ["plyreaed.py"; "ten.ply"; "25"] start = Done tt w
    ∧ exit_status (main PyInt.int one_file ["plyreaed.py"; "ten.ply"; "25"] start)
      = Some 0%Z
    ∧ vertex_lines (stdout w) = ten_vertices
    ∧ length (vertex_lines (stdout w)) = 10.
Proof.
  apply (oversized_count_prints_all PyInt.int one_file "plyreaed.py" "ten.ply" ["25"]
           {["vertex" := ten]} ten 25).
  - reflexivity.
  - simpl. lia.
  - reflexivity.
  - reflexivity.
Defined.

End InspectorTheorems.

(** ** The import script: how a run can end *)

Module ImportOutcomes.
Import PyBytes PyFile PyFileFacts Float Numpy NumpyFacts Bpy Py Importer.
Import PointCloud HeaderFacts ImportFacts.


Lemma fromfile_short (f : file) :
  length (content f) - position f < 27 -> fromfile f = [].
Proof.
  intros Hshort. destruct (fromfile_chunks f) as [Hlen _].
  unfold remaining in Hlen. rewrite length_drop in Hlen.
  rewrite Nat.div_small in Hlen by done. by apply nil_length_inv.
Qed.



(** When fewer than 27 bytes follow the header, the run prints that it
    loaded 0 points and then ends with [IndexError] at the first
    [data['x'][0]]: the object of an earlier import is gone and no new
    object or mesh was made. *)
Theorem no_whole_record_raises_index_error
    (fuel : nat) (fs : gmap string bytes) (contents : bytes)
    (header_end : nat) (w : world) :
  fs !! ply_path = Some contents ->
  scan_header fuel [] (open_rb contents) = Some header_end ->
  length contents - header_end < 27 ->
  ∃ w' : world,
    script fuel fs w = Raised IndexError w'
    ∧ stdout w' = stdout w ++ [Loaded 0]
    ∧ objects (bpy_data w') = delete "PointCloud" (objects (bpy_data w))
    ∧ meshes (bpy_data w') = meshes (bpy_data w).
Proof.
  intros Hfs Hscan Hshort. eexists. split.
  - apply (script_without_items fuel fs contents header_end); [done..|].
    by apply fromfile_short.
  - done.
Qed.

Lemma no_whole_record_raises_index_error_witness :
  ∃ w' : world,
    script 3 {[ply_path := header]} earlier_world = Raised IndexError w'
    ∧ stdout w' = stdout earlier_world ++ [Loaded 0]
    ∧ objects (bpy_data w')
      = delete "PointCloud" (objects (bpy_data earlier_world))
    ∧ meshes (bpy_data w') = meshes (bpy_data earlier_world).
Proof.
  apply (no_whole_record_raises_index_error 3 _ header (length header)).
  - apply lookup_singleton_eq.
  - reflexivity.
  - simpl. lia.
Defined.

(** A run that ends normally has printed six lines: the number of whole
    records after the header, then the position, the colour and the
    velocity of the first record of the file, then the two closing
    lines. *)
Theorem report_shows_first_record
    (fuel : nat) (fs : gmap string bytes) (contents : bytes)
    (header_end : nat) (v : item) (items : list item) (w : world) :
  fs !! ply_path = Some contents ->
  scan_header fuel [] (open_rb contents) = Some header_end ->
  fromfile (seek (open_rb contents) header_end) = v :: items ->
  ∃ w' : world,
    script fuel fs w = Done tt w'
    ∧ unpack (take 27 (drop header_end contents)) = Some v
    ∧ stdout w'
      = stdout w ++ [Loaded ((length contents - header_end) / 27);
                     FirstPoint (x v) (y v) (z v);
                     FirstColor (red v) (green v) (blue v);
                     FirstVelocity (vx v) (vy v) (vz v);
                     Completed; SpreadsheetHint].
Proof.
  intros Hfs Hscan Hitems. exists (imported w (v :: items) v).
  split; [by apply (script_done fuel fs contents header_end)|].
  destruct (fromfile_chunks (seek (open_rb contents) header_end))
    as [Hlen Hitem].
  rewrite Hitems in Hlen, Hitem.
  unfold remaining in Hlen, Hitem. cbn [seek open_rb content position] in *.
  rewrite length_drop in Hlen. split.
  - specialize (Hitem 0). rewrite length_drop, <- Hlen in Hitem.
    symmetry. apply Hitem. simpl. lia.
  - unfold imported. cbn [stdout]. by rewrite Hlen.
Qed.

Lemma report_shows_first_record_witness :
  ∃ w' : world,
    script 3 {[ply_path := scenario]} empty_world = Done tt w'
    ∧ unpack (take 27 (drop (length header) scenario)) = Some item1
    ∧ stdout w'
      = stdout empty_world
        ++ [Loaded ((length scenario - length header) / 27);
            FirstPoint (x item1) (y item1) (z item1);
            FirstColor (red item1) (green item1) (blue item1);
            FirstVelocity (vx item1) (vy item1) (vz item1);
            Completed; SpreadsheetHint].
Proof.
  apply (report_shows_first_record 3 _ scenario (length header)
           item1 [item2; item3]).
  - apply lookup_singleton_eq.
  - reflexivity.
  - reflexivity.
Defined.

End ImportOutcomes.

(** ** The import script: meshes across runs *)

Module ImportReruns.
Import PyBytes PyFile Float Numpy Bpy Py Importer PointCloud ImportFacts.

Lemma in_map_Some {A} (m : gmap string A) (name : string) (a : A) :
  m !! name = Some a -> in_map m name = true.
Proof.
  intros H. unfold in_map. apply bool_decide_eq_true_2. by exists a.
Qed.

Lemma unique_name_numbered (taken : string -> bool) (bound : nat)
    (name : string) :
  taken name = true ->
  bound ≠ 0 ->
  taken (numbered name 1) = false ->
  unique_name taken bound name = numbered name 1.
Proof.
  intros Htaken Hbound Hfree. unfold unique_name. rewrite Htaken.
  destruct bound as [|bound]; [done|]. cbn [first_free]. by rewrite Hfree.
Qed.

Lemma meshes_new_fresh (d : blend_data) :
  meshes d !! "PointCloudMesh" = None ->
  (meshes_new "PointCloudMesh" d).1 = "PointCloudMesh".
Proof.
  intros H. cbn [meshes_new fst]. apply unique_name_free. by apply in_map_None.
Qed.

Lemma meshes_new_second (d : blend_data) (m0 : mesh) :
  meshes d !! "PointCloudMesh" = Some m0 ->
  meshes d !! "PointCloudMesh.001" = None ->
  (meshes_new "PointCloudMesh" d).1 = "PointCloudMesh.001".
Proof.
  intros Hold Hfree. cbn [meshes_new fst].
  rewrite unique_name_numbered; [reflexivity|by eapply in_map_Some| |].
  - apply (map_size_ne_0_lookup_2 _ "PointCloudMesh"). by exists m0.
  - change (numbered "PointCloudMesh" 1) with "PointCloudMesh.001".
    by apply in_map_None.
Qed.

Lemma mesh_of_is_point_cloud (items : list item) :
  is_point_cloud (mesh_of items) items.
Proof. by repeat split. Qed.

(** The script removes the object of an earlier import but not the mesh
    that object held: when a mesh called PointCloudMesh is there, and none
    called PointCloudMesh.001, the new mesh gets the latter name, the new
    object holds it, and every mesh that was there is kept as it was. *)
Theorem second_import_keeps_earlier_mesh
    (fuel : nat) (fs : gmap string bytes) (contents : bytes)
    (header_end : nat) (v : item) (items : list item) (w : world)
    (m0 : mesh) :
  fs !! ply_path = Some contents ->
  scan_header fuel [] (open_rb contents) = Some header_end ->
  fromfile (seek (open_rb contents) header_end) = v :: items ->
  meshes (bpy_data w) !! "PointCloudMesh" = Some m0 ->
  meshes (bpy_data w) !! "PointCloudMesh.001" = None ->
  ∃ (w' : world) (m' : mesh),
    script fuel fs w = Done tt w'
    ∧ objects (bpy_data w') !! "PointCloud"
      = Some (Object "PointCloudMesh.001" true)
    ∧ meshes (bpy_data w') !! "PointCloudMesh.001" = Some m'
    ∧ is_point_cloud m' (v :: items)
    ∧ ∀ (name : string) (m : mesh),
        meshes (bpy_data w) !! name = Some m ->
        meshes (bpy_data w') !! name = Some m.
Proof.
  intros Hfs Hscan Hitems Hold Hfree.
  exists (imported w (v :: items) v), (mesh_of (v :: items)).
  split; [by apply (script_done fuel fs contents header_end)|].
  unfold imported. cbn [bpy_data meshes objects].
  rewrite (meshes_new_second _ m0) by done.
  split; [apply lookup_insert_eq|]. split; [apply lookup_insert_eq|].
  split; [apply mesh_of_is_point_cloud|].
  intros name m Hm. rewrite lookup_insert_ne; [done|congruence].
Qed.

Lemma second_import_keeps_earlier_mesh_witness :
  ∃ (w' : world) (m' : mesh),
    script 3 {[ply_path := scenario]} earlier_world = Done tt w'
    ∧ objects (bpy_data w') !! "PointCloud"
      = Some (Object "PointCloudMesh.001" true)
    ∧ meshes (bpy_data w') !! "PointCloudMesh.001" = Some m'
    ∧ is_point_cloud m' [item1; item2; item3]
    ∧ ∀ (name : string) (m : mesh),
        meshes (bpy_data earlier_world) !! name = Some m ->
        meshes (bpy_data w') !! name = Some m.
Proof.
  apply (second_import_keeps_earlier_mesh 3 _ scenario (length header)
           item1 [item2; item3] earlier_world (mesh_of [item2])).
  - apply lookup_singleton_eq.
  - reflexivity.
  - reflexivity.
  - reflexivity.
  - reflexivity.
Defined.

(** Two imports of the same file in a row, starting without meshes called
    PointCloudMesh or PointCloudMesh.001: both end normally; afterwards
    there is still one object called PointCloud, now holding the mesh of
    the second run, and each run has left a mesh of its own holding the
    point cloud, the other meshes being as before, so that the number of
    meshes has grown by two. *)
Theorem importing_twice_leaves_two_meshes
    (fuel : nat) (fs : gmap string bytes) (contents : bytes)
    (header_end : nat) (v : item) (items : list item) (w : world) :
  fs !! ply_path = Some contents ->
  scan_header fuel [] (open_rb contents) = Some header_end ->
  fromfile (seek (open_rb contents) header_end) = v :: items ->
  meshes (bpy_data w) !! "PointCloudMesh" = None ->
  meshes (bpy_data w) !! "PointCloudMesh.001" = None ->
  ∃ (w1 w2 : world) (m1 m2 : mesh),
    script fuel fs w = Done tt w1
    ∧ script fuel fs w1 = Done tt w2
    ∧ objects (bpy_data w1)
      = <["PointCloud" := Object "PointCloudMesh" true]> (objects (bpy_data w))
    ∧ objects (bpy_data w2)
      = <["PointCloud" := Object "PointCloudMesh.001" true]>
          (objects (bpy_data w))
    ∧ meshes (bpy_data w2) !! "PointCloudMesh" = Some m1
    ∧ meshes (bpy_data w2) !! "PointCloudMesh.001" = Some m2
    ∧ is_point_cloud m1 (v :: items)
    ∧ is_point_cloud m2 (v :: items)
    ∧ (∀ name : string,
         name ≠ "PointCloudMesh" -> name ≠ "PointCloudMesh.001" ->
         meshes (bpy_data w2) !! name = meshes (bpy_data w) !! name)
    ∧ size (meshes (bpy_data w2)) = size (meshes (bpy_data w)) + 2.
Proof.
  intros Hfs Hscan Hitems Hfree Hfree'.
  exists (imported w (v :: items) v),
    (imported (imported w (v :: items) v) (v :: items) v),
    (mesh_of (v :: items)), (mesh_of (v :: items)).
  split; [by apply (script_done fuel fs contents header_end)|].
  split; [by apply (script_done fuel fs contents header_end)|].
  assert (meshes (bpy_data (imported w (v :: items) v))
          = <["PointCloudMesh" := mesh_of (v :: items)]> (meshes (bpy_data w)))
    as Hmeshes.
  { unfold imported. cbn [bpy_data meshes]. by rewrite meshes_new_fresh. }
  assert (objects (bpy_data (imported w (v :: items) v))
          = <["PointCloud" := Object "PointCloudMesh" true]>
              (objects (bpy_data w)))
    as Hobjects.
  { unfold imported. cbn [bpy_data objects]. by rewrite meshes_new_fresh. }
  split; [exact Hobjects|].
  assert (meshes (bpy_data
                    (imported (imported w (v :: items) v) (v :: items) v))
          = <["PointCloudMesh.001" := mesh_of (v :: items)]>
              (<["PointCloudMesh" := mesh_of (v :: items)]>
                 (meshes (bpy_data w)))
          ∧ objects (bpy_data
                       (imported (imported w (v :: items) v) (v :: items) v))
            = <["PointCloud" := Object "PointCloudMesh.001" true]>
                (objects (bpy_data w))) as [-> ->].
  { unfold imported at 1 3. cbn [bpy_data meshes objects].
    rewrite (meshes_new_second _ (mesh_of (v :: items))); cycle 1.
    { rewrite Hmeshes. apply lookup_insert_eq. }
    { rewrite Hmeshes. by rewrite lookup_insert_ne. }
    by rewrite Hobjects, Hmeshes, insert_insert_eq. }
  split; [done|].
  split; [by rewrite lookup_insert_ne, lookup_insert_eq|].
  split; [apply lookup_insert_eq|].
  split; [apply mesh_of_is_point_cloud|].
  split; [apply mesh_of_is_point_cloud|].
  split; [intros name H1 H2; by rewrite !lookup_insert_ne|].
  rewrite !map_size_insert_None; [lia|done|].
  by rewrite lookup_insert_ne.
Qed.

Lemma importing_twice_leaves_two_meshes_witness :
  ∃ (w1 w2 : world) (m1 m2 : mesh),
    script 3 {[ply_path := scenario]} empty_world = Done tt w1
    ∧ script 3 {[ply_path := scenario]} w1 = Done tt w2
    ∧ objects (bpy_data w1)
      = <["PointCloud" := Object "PointCloudMesh" true]>
          (objects (bpy_data empty_world))
    ∧ objects (bpy_data w2)
      = <["PointCloud" := Object "PointCloudMesh.001" true]>
          (objects (bpy_data empty_world))
    ∧ meshes (bpy_data w2) !! "PointCloudMesh" = Some m1
    ∧ meshes (bpy_data w2) !! "PointCloudMesh.001" = Some m2
    ∧ is_point_cloud m1 [item1; item2; item3]
    ∧ is_point_cloud m2 [item1; item2; item3]
    ∧ (∀ name : string,
         name ≠ "PointCloudMesh" -> name ≠ "PointCloudMesh.001" ->
         meshes (bpy_data w2) !! name = meshes (bpy_data empty_world) !! name)
    ∧ size (meshes (bpy_data w2)) = size (meshes (bpy_data empty_world)) + 2.
Proof.
  apply (importing_twice_leaves_two_meshes 3 _ scenario (length header)
           item1 [item2; item3] empty_world).
  - apply lookup_singleton_eq.
  - reflexivity.
  - reflexivity.
  - reflexivity.
  - reflexivity.
Defined.

End ImportReruns.

(** ** The header scan: padding and the end of the file *)

Module HeaderEdges.
Import PyBytes PyFile PyFileFacts Float Numpy NumpyFacts Bpy Py Importer.
Import PointCloud HeaderFacts ImportFacts ImportOutcomes.

Lemma lstrip_spaces (l s : bytes) :
  Forall (λ c, is_space c = true) l -> lstrip (l ++ s) = lstrip s.
Proof. induction 1 as [|c l Hc _ IH]; [done|]. cbn. by rewrite Hc. Qed.

(** White space around a word that neither begins nor ends with white
    space is stripped, and only that. *)
Lemma strip_padded (l core r : bytes) :
  Forall (λ c, is_space c = true) l ->
  Forall (λ c, is_space c = true) r ->
  lstrip core = core ->
  lstrip (rev core) = rev core ->
  core ≠ [] ->
  strip (l ++ core ++ r) = core.
Proof.
  intros Hl Hr Hhead Hlast Hne. unfold strip, rstrip.
  rewrite lstrip_spaces by done.
  assert (lstrip (core ++ r) = core ++ r) as ->.
  { destruct core as [|c core]; [done|]. cbn in *.
    destruct (is_space c); [|done].
    apply (f_equal length) in Hhead. cbn in Hhead.
    assert (length (lstrip core) <= length core); [|lia].
    clear. induction core as [|c core IH]; cbn; [lia|].
    destruct (is_space c); cbn; lia. }
  rewrite rev_app_distr, lstrip_spaces by by apply Forall_rev.
  by rewrite Hlast, rev_involutive.
Qed.

(** The lines before the sentinel line are skipped one per turn. *)
Lemma scan_header_skip (before : list bytes) (rest : bytes) :
  Forall is_line before ->
  Forall (λ l, strip l ≠ end_header) before ->
  ∀ (pre line : bytes) (fuel : nat),
    strip line ≠ end_header ->
    ∃ line' : bytes,
      strip line' ≠ end_header
      ∧ scan_header (length before + fuel) line
          (File (pre ++ concat before ++ rest) (length pre))
        = scan_header fuel line'
            (File ((pre ++ concat before) ++ rest)
               (length (pre ++ concat before))).
Proof.
  intros Hlines Hnot.
  induction before as [|l before IH]; intros pre line fuel Hline.
  - exists line. split; [done|]. cbn [concat length Nat.add app].
    by rewrite (right_id_L [] (++)).
  - apply Forall_cons in Hlines as [Hl Hlines].
    apply Forall_cons in Hnot as [Hnl Hnot].
    destruct (IH Hlines Hnot (pre ++ l) l fuel Hnl) as (line' & Hline' & Hscan).
    exists line'. split; [done|].
    cbn [length Nat.add]. rewrite scan_header_step by done.
    unfold readline. cbn [concat]. rewrite remaining_seek.
    rewrite <- (assoc_L (++) l). cbn [fst snd content position].
    rewrite take_line_line by done.
    rewrite <- length_app.
    replace (pre ++ l ++ concat before ++ rest)
      with ((pre ++ l) ++ concat before ++ rest)
      by by rewrite <- !(assoc_L (++)).
    rewrite Hscan. by rewrite <- !(assoc_L (++)).
Qed.

Lemma take_line_no_newline (s : bytes) : newline ∉ s -> take_line s = s.
Proof.
  induction s as [|c s IH]; [done|]. intros Hnl.
  apply not_elem_of_cons in Hnl as [Hc Hs]. cbn.
  rewrite decide_False by congruence. by rewrite IH.
Qed.

(** The sentinel line may carry white space: with blanks or tabs before
    [end_header] and, for instance, a carriage return before the newline,
    the scan still stops there and returns the offset after the newline. *)
Theorem padded_sentinel_line_ends_header
    (before : list bytes) (pad_left pad_right rest : bytes) (fuel : nat) :
  Forall is_line before ->
  Forall (λ l, strip l ≠ end_header) before ->
  Forall (λ c, is_space c = true) pad_left ->
  Forall (λ c, is_space c = true) pad_right ->
  newline ∉ pad_left ->
  newline ∉ pad_right ->
  length before < fuel ->
  let sentinel := pad_left ++ end_header ++ pad_right ++ [newline] in
  scan_header fuel [] (open_rb (concat before ++ sentinel ++ rest))
  = Some (length (concat before ++ sentinel)).
Proof.
  intros Hlines Hnot Hleft Hright Hnl_left Hnl_right Hfuel sentinel.
  assert (is_line sentinel) as Hline.
  { exists (pad_left ++ end_header ++ pad_right). split.
    - unfold sentinel. by rewrite <- !(assoc_L (++)).
    - rewrite !elem_of_app. intros [H|[H|H]]; [done| |done].
      repeat (apply elem_of_cons in H as [H|H]; [discriminate H|]).
      by apply elem_of_nil in H. }
  assert (strip sentinel = end_header) as Hstrip.
  { unfold sentinel. apply strip_padded; [done| |done..].
    apply Forall_app. split; [done|]. by repeat constructor. }
  exact (scan_header_found before sentinel rest Hlines Hnot Hline Hstrip
           [] [] fuel empty_line_not_sentinel Hfuel).
Qed.

Lemma padded_sentinel_line_ends_header_witness :
  let sentinel := [x20; x09] ++ end_header ++ [x0d] ++ [newline] in
  scan_header 3 []
    (open_rb (concat header_lines ++ sentinel ++ pack item1))
  = Some (length (concat header_lines ++ sentinel)).
Proof.
  apply (padded_sentinel_line_ends_header header_lines [x20; x09] [x0d]).
  - exact ImportTheorems.header_lines_complete.
  - exact ImportTheorems.header_lines_not_sentinel.
  - by repeat constructor.
  - by repeat constructor.
  - intros H. repeat (apply elem_of_cons in H as [H|H]; [discriminate H|]).
    by apply elem_of_nil in H.
  - intros H. repeat (apply elem_of_cons in H as [H|H]; [discriminate H|]).
    by apply elem_of_nil in H.
  - simpl. lia.
Defined.

(** A file that ends with the sentinel and no newline after it: the scan
    returns the length of the file, and since no byte is left for a record
    the run ends with [IndexError] after printing that 0 points were
    loaded. *)
Theorem sentinel_at_end_of_file
    (before : list bytes) (last : bytes) (fuel : nat)
    (fs : gmap string bytes) (w : world) :
  Forall is_line before ->
  Forall (λ l, strip l ≠ end_header) before ->
  newline ∉ last ->
  strip last = end_header ->
  length before < fuel ->
  fs !! ply_path = Some (concat before ++ last) ->
  scan_header fuel [] (open_rb (concat before ++ last))
  = Some (length (concat before ++ last))
  ∧ script fuel fs w
    = Raised IndexError
        (World (BlendData (meshes (bpy_data w))
                  (delete "PointCloud" (objects (bpy_data w))))
           (stdout w ++ [Loaded 0])).
Proof.
  intros Hlines Hnot Hnl Hstrip Hfuel Hfs.
  assert (scan_header fuel [] (open_rb (concat before ++ last))
          = Some (length (concat before ++ last))) as Hscan.
  { replace fuel with (length before + S (fuel - S (length before))) by lia.
    destruct (scan_header_skip before last Hlines Hnot [] []
                (S (fuel - S (length before))) empty_line_not_sentinel)
      as (line' & Hline' & Hskip).
    cbn [app length] in Hskip. unfold open_rb. rewrite Hskip.
    change (concat before ++ last) with ([] ++ concat before ++ last) at 1.
    rewrite (assoc_L (++)). cbn [app].
    rewrite scan_header_step by done.
    unfold readline. rewrite remaining_seek. cbn [fst snd content position].
    rewrite take_line_no_newline by done.
    rewrite scan_header_stop by done.
    unfold tell. cbn [position]. by rewrite length_app. }
  split; [exact Hscan|].
  apply (script_without_items fuel fs _ _ w Hfs Hscan).
  apply fromfile_short. cbn [seek open_rb content position]. lia.
Qed.

Lemma sentinel_at_end_of_file_witness :
  scan_header 3 [] (open_rb (concat header_lines ++ end_header))
  = Some (length (concat header_lines ++ end_header))
  ∧ script 3 {[ply_path := concat header_lines ++ end_header]} empty_world
    = Raised IndexError
        (World (BlendData (meshes (bpy_data empty_world))
                  (delete "PointCloud" (objects (bpy_data empty_world))))
           (stdout empty_world ++ [Loaded 0])).
Proof.
  apply sentinel_at_end_of_file.
  - exact ImportTheorems.header_lines_complete.
  - exact ImportTheorems.header_lines_not_sentinel.
  - intros H. repeat (apply elem_of_cons in H as [H|H]; [discriminate H|]).
    by apply elem_of_nil in H.
  - reflexivity.
  - simpl. lia.
  - apply lookup_singleton_eq.
Defined.

End HeaderEdges.

(** ** The record layout, read backwards *)

Module LayoutFacts.
Import PyBytes PyFile Float Numpy NumpyFacts.

Lemma u8_bounds (c : byte) : (0 <= u8 c < 256)%Z.
Proof.
  unfold u8. pose proof (Byte.to_N_bounded c).
  split; [apply N2Z.is_nonneg|]. lia.
Qed.

Lemma byte_of_Z_u8 (c : byte) (k : Z) : byte_of_Z (u8 c + 256 * k) = c.
Proof.
  unfold byte_of_Z.
  replace ((u8 c + 256 * k) mod 256)%Z with (u8 c).
  - unfold u8. by rewrite N2Z.id, Byte.of_to_N.
  - pose proof (u8_bounds c). rewrite (Z.mul_comm 256 k), Z.mod_add by lia.
    symmetry. by apply Z.mod_small.
Qed.

Lemma le32_bytes_le32 (b0 b1 b2 b3 : byte) :
  le32_bytes (le32 b0 b1 b2 b3) = [b0; b1; b2; b3]
  ∧ is_word32 (le32 b0 b1 b2 b3).
Proof.
  pose proof (u8_bounds b0). pose proof (u8_bounds b1).
  pose proof (u8_bounds b2). pose proof (u8_bounds b3).
  unfold le32_bytes, le32, is_word32.
  change (2 ^ 8)%Z with 256%Z. change (2 ^ 16)%Z with 65536%Z.
  change (2 ^ 24)%Z with 16777216%Z. change (2 ^ 32)%Z with 4294967296%Z.
  split; [|lia].
  set (w := (u8 b0 + 256 * u8 b1 + 65536 * u8 b2 + 16777216 * u8 b3)%Z).
  assert (w / 256 = u8 b1 + 256 * (u8 b2 + 256 * u8 b3))%Z as ->.
  { symmetry. apply (Z.div_unique _ _ _ (u8 b0)); [lia|]. unfold w. lia. }
  assert (w / 65536 = u8 b2 + 256 * u8 b3)%Z as ->.
  { symmetry. apply (Z.div_unique _ _ _ (u8 b0 + 256 * u8 b1)); [lia|].
    unfold w. lia. }
  assert (w / 16777216 = u8 b3 + 256 * 0)%Z as ->.
  { symmetry.
    apply (Z.div_unique _ _ _ (u8 b0 + 256 * u8 b1 + 65536 * u8 b2)); [lia|].
    unfold w. lia. }
  replace w with (u8 b0 + 256 * (u8 b1 + 256 * u8 b2 + 65536 * u8 b3))%Z
    by (unfold w; lia).
  by rewrite !byte_of_Z_u8.
Qed.

(** Reading loses nothing: the item that [unpack] makes of a group of
    bytes has all its float fields within 32 bits, and packing it gives
    back these very bytes, so that the group has exactly 27 bytes and each
    of them belongs to one field. *)
Theorem unpack_then_pack (s : bytes) (v : item) :
  unpack s = Some v ->
  pack v = s ∧ valid_item v ∧ length s = 27.
Proof.
  intros Hunpack.
  do 27 (destruct s as [|? s]; [discriminate Hunpack|]).
  destruct s; [|discriminate Hunpack].
  cbn in Hunpack. injection Hunpack as <-.
  unfold pack, valid_item. cbn [x y z red green blue vx vy vz].
  repeat match goal with
         | |- context [le32 ?a ?b ?c ?d] =>
             let H := fresh in
             let Hw := fresh in
             destruct (le32_bytes_le32 a b c d) as [H Hw];
             rewrite H; revert Hw; generalize (le32 a b c d); intros ? ?
         end.
  done.
Qed.

Lemma unpack_then_pack_witness :
  pack PointCloud.item2 = pack PointCloud.item2
  ∧ valid_item PointCloud.item2
  ∧ length (pack PointCloud.item2) = 27.
Proof. apply unpack_then_pack. reflexivity. Defined.

End LayoutFacts.

(** ** The colour channels as numbers *)

Module ChannelFacts.
Import PyBytes Float Numpy PointCloud LayoutFacts.

Lemma byte_of_to_nat (c : byte) : byte_of_Z (Z.of_nat (Byte.to_nat c)) = c.
Proof.
  replace (Z.of_nat (Byte.to_nat c)) with (u8 c + 256 * 0)%Z.
  - by rewrite byte_of_Z_u8.
  - unfold u8. rewrite Byte.to_N_via_nat. lia.
Qed.

(** The 256 channel values, each computed once, compared two by two. *)
Lemma channels_compared :
  let table :=
    (λ n, (n, f32_of_bits (channel (byte_of_Z (Z.of_nat n))))) <$> seq 0 256 in
  forallb
    (λ p, SFleb (S754_zero false) p.2 && SFleb p.2 (SFone 24 128)
          && forallb (λ q, implb (p.1 <? q.1)%nat (SFltb p.2 q.2)) table)
    table
  = true.
Proof. vm_compute. reflexivity. Qed.

Lemma channel_in_table (c : byte) :
  In (Byte.to_nat c, f32_of_bits (channel c))
    ((λ n, (n, f32_of_bits (channel (byte_of_Z (Z.of_nat n))))) <$> seq 0 256).
Proof.
  apply list_elem_of_In, list_elem_of_fmap. exists (Byte.to_nat c). split.
  - by rewrite byte_of_to_nat.
  - apply elem_of_seq. pose proof (Byte.to_nat_bounded c). lia.
Qed.

(** Every colour channel stored is a number between 0.0 and 1.0, and a
    larger byte gives a strictly larger number: no two of the 256 channel
    values are stored as the same colour. *)
Theorem channel_is_increasing_within_unit (c c' : byte) :
  SFleb (S754_zero false) (f32_of_bits (channel c)) = true
  ∧ SFleb (f32_of_bits (channel c)) (SFone 24 128) = true
  ∧ ((u8 c < u8 c')%Z ->
     SFltb (f32_of_bits (channel c)) (f32_of_bits (channel c')) = true).
Proof.
  pose proof channels_compared as Hall. cbv zeta in Hall.
  rewrite forallb_forall in Hall.
  specialize (Hall _ (channel_in_table c)). cbn [fst snd] in Hall.
  apply andb_prop in Hall as [Hunit Hall].
  apply andb_prop in Hunit as [Hlow Hhigh].
  split; [exact Hlow|]. split; [exact Hhigh|].
  intros Hlt. rewrite forallb_forall in Hall.
  specialize (Hall _ (channel_in_table c')). cbn [fst snd] in Hall.
  assert ((Byte.to_nat c <? Byte.to_nat c')%nat = true) as Hlt'.
  { apply Nat.ltb_lt. unfold u8 in Hlt. rewrite !Byte.to_N_via_nat in Hlt. lia. }
  by rewrite Hlt' in Hall.
Qed.

Lemma channel_is_increasing_within_unit_witness :
  SFleb (S754_zero false) (f32_of_bits (channel x7f)) = true
  ∧ SFleb (f32_of_bits (channel x7f)) (SFone 24 128) = true
  ∧ ((u8 x7f < u8 x80)%Z ->
     SFltb (f32_of_bits (channel x7f)) (f32_of_bits (channel x80)) = true).
Proof. apply channel_is_increasing_within_unit. Defined.

End ChannelFacts.

(** ** The inspector script: numerals, other counts and failures *)

Module InspectorEdges.
Import Py Inspector InspectorFacts Decimal.
Local Open Scope py_scope.









Section Script.
Context {V D RE : Type} (int : string -> option Z).
Implicit Types (fs : string -> gmap string (element V D) + RE).
Implicit Types (vertex : element V D).

(** The run up to the call of [PlyData.read], for the count the arguments
    ask for. *)
Lemma main_reads fs (prog filename : string) (args : list string) (N : Z) :
  requests int args N ->
  main int fs (prog :: filename :: args) start
  = (ply <- PlyData_read fs filename ;;
     print VertexDataTypeHeading ;;
     vertex <- getitem ply "vertex" ;;
     print (DType (dtype vertex)) ;;
     print (FirstVerticesHeading N) ;;
     for_each (slice_to (data vertex) N) (λ v, print (VertexLine v)))
      (World [Reading filename] []).
Proof.
  intros Hargs. unfold main, start.
  unfold bind at 1. rewrite bool_decide_eq_false_2 by (cbn; lia).
  unfold ret at 1. unfold bind at 1. cbn [index lookup list_lookup or_raise].
  unfold ret at 1. unfold bind at 1.
  assert ((if bool_decide (2 < length (prog :: filename :: args))
           then arg <- index (prog :: filename :: args) 2;;
                or_raise ValueError (int arg)
           else ret 5%Z) (World [] [])
          = Done (W := world V D) (E := exn RE) N (World [] [])) as ->.
  { destruct args as [|arg rest]; cbn in Hargs.
    - rewrite bool_decide_eq_false_2 by (cbn; lia). by subst N.
    - rewrite bool_decide_eq_true_2 by (cbn; lia).
      unfold bind, index. cbn. by rewrite Hargs. }
  unfold bind at 1, print at 1. reflexivity.
Qed.

(** When [PlyData.read] fails, its error ends the run: only the line that
    names the file has been printed, and the exit status is 1. *)
Theorem read_error_ends_run fs (prog filename : string) (args : list string)
    (N : Z) (e : RE) :
  requests int args N ->
  fs filename = inr e ->
  main int fs (prog :: filename :: args) start
  = Raised (ReadError e) (World [Reading filename] [filename])
  ∧ exit_status (main int fs (prog :: filename :: args) start) = Some 1%Z.
Proof.
  intros Hargs Hfs.
  assert (main int fs (prog :: filename :: args) start
          = Raised (ReadError e) (World [Reading filename] [filename])) as ->.
  { rewrite (main_reads fs prog filename args N Hargs).
    unfold bind at 1, PlyData_read. by rewrite Hfs. }
  done.
Qed.

(** When the file has no element called vertex, the run ends with
    [KeyError] after the heading of the data type: no data type, no
    vertex line is printed, and the exit status is 1. *)
Theorem missing_vertex_element_raises_key_error fs (prog filename : string)
    (args : list string) (N : Z) (ply : gmap string (element V D)) :
  requests int args N ->
  fs filename = inl ply ->
  ply !! "vertex" = None ->
  main int fs (prog :: filename :: args) start
  = Raised KeyError
      (World [Reading filename; VertexDataTypeHeading] [filename])
  ∧ exit_status (main int fs (prog :: filename :: args) start) = Some 1%Z.
Proof.
  intros Hargs Hfs Hvertex.
  assert (main int fs (prog :: filename :: args) start
          = Raised KeyError
              (World [Reading filename; VertexDataTypeHeading] [filename]))
    as ->.
  { rewrite (main_reads fs prog filename args N Hargs).
    unfold bind at 1, PlyData_read. rewrite Hfs.
    unfold bind at 1, print at 1. cbn [stdout opened app].
    unfold bind at 1, getitem. by rewrite Hvertex. }
  done.
Qed.

(** A negative count [-k] is a slice from the end: the run ends normally
    and prints all the vertices but the last [k], none when there are at
    most [k]. *)
Theorem negative_count_drops_last_vertices fs (prog filename : string)
    (args : list string) (ply : gmap string (element V D)) vertex (N : Z) :
  requests int args N ->
  (N < 0)%Z ->
  fs filename = inl ply ->
  ply !! "vertex" = Some vertex ->
  ∃ w : world V D,
    main int fs (prog :: filename :: args) start = Done tt w
    ∧ vertex_lines (stdout w)
      = take (length (data vertex) - Z.to_nat (- N)) (data vertex).
Proof.
  intros Hargs HN Hfs Hvertex. exists (listing filename vertex N).
  split; [by apply (main_lists int fs prog filename args ply)|].
  rewrite vertex_lines_listing. by apply slice_to_negative.
Qed.

(** Arguments after the count are never looked at. *)
Theorem further_arguments_are_ignored fs (prog filename arg : string)
    (rest : list string) (w : world V D) :
  main int fs (prog :: filename :: arg :: rest) w = main int fs [prog; filename; arg] w.
Proof.
  unfold main. unfold bind at 1 3.
  rewrite !bool_decide_eq_false_2 by (cbn; lia).
  unfold ret at 1 3. unfold bind at 1 3. cbn [index lookup list_lookup or_raise].
  unfold ret at 1 3. unfold bind at 1 3.
  by rewrite !bool_decide_eq_true_2 by (cbn; lia).
Qed.

(** As far as the statements of the script go (printing and the imports
    are taken not to fail), every run ends in one of five ways, whatever
    the conversion [int] does: the usage exit, [ValueError] for the count,
    the error of [PlyData.read], [KeyError] for the vertex element, or
    normally with the listing. The two indexings of [sys.argv] are
    guarded by the length tests, so [IndexError] does not occur. *)
Theorem inspector_ends_in_five_ways fs (argv : list string) :
  (length argv < 2
   ∧ main int fs argv start = Raised (SystemExit 1) (World [Usage] []))
  ∨ ∃ (prog filename : string) (args : list string),
      argv = prog :: filename :: args
      ∧ ((∃ (arg : string) (rest : list string),
            args = arg :: rest ∧ int arg = None
            ∧ main int fs argv start = Raised ValueError (World [] []))
         ∨ ∃ N : Z,
             requests int args N
             ∧ ((∃ e : RE,
                   fs filename = inr e
                   ∧ main int fs argv start
                     = Raised (ReadError e)
                         (World [Reading filename] [filename]))
                ∨ (∃ ply : gmap string (element V D),
                     fs filename = inl ply ∧ ply !! "vertex" = None
                     ∧ main int fs argv start
                       = Raised KeyError
                           (World [Reading filename; VertexDataTypeHeading]
                              [filename]))
                ∨ (∃ (ply : gmap string (element V D)) vertex,
                     fs filename = inl ply ∧ ply !! "vertex" = Some vertex
                     ∧ main int fs argv start
                       = Done tt (listing filename vertex N)))).
Proof.
  destruct argv as [|prog [|filename args]].
  - left. split; [cbn; lia|]. reflexivity.
  - left. split; [cbn; lia|]. reflexivity.
  - right. exists prog, filename, args. split; [done|].
    assert (∀ N, requests int args N ->
              (∃ e : RE,
                   fs filename = inr e
                   ∧ main int fs (prog :: filename :: args) start
                     = Raised (ReadError e)
                         (World [Reading filename] [filename]))
                ∨ (∃ ply : gmap string (element V D),
                     fs filename = inl ply ∧ ply !! "vertex" = None
                     ∧ main int fs (prog :: filename :: args) start
                       = Raised KeyError
                           (World [Reading filename; VertexDataTypeHeading]
                              [filename]))
                ∨ (∃ (ply : gmap string (element V D)) vertex,
                     fs filename = inl ply ∧ ply !! "vertex" = Some vertex
                     ∧ main int fs (prog :: filename :: args) start
                       = Done tt (listing filename vertex N))) as Hread.
    { intros N Hargs.
      destruct (fs filename) as [ply|e] eqn:Hfs.
      - destruct (ply !! "vertex") as [vertex|] eqn:Hvertex.
        + right. right. exists ply, vertex.
          split; [done|]. split; [done|].
          by apply (main_lists int fs prog filename args ply).
        + right. left. exists ply. split; [done|]. split; [done|].
          rewrite (main_reads fs prog filename args N Hargs).
          unfold bind at 1, PlyData_read. rewrite Hfs.
          unfold bind at 1, print at 1. cbn [stdout opened app].
          unfold bind at 1, getitem. by rewrite Hvertex.
      - left. exists e. split; [done|].
        rewrite (main_reads fs prog filename args N Hargs).
        unfold bind at 1, PlyData_read. by rewrite Hfs. }
    destruct args as [|arg rest].
    + right. exists 5%Z. split; [done|]. by apply Hread.
    + destruct (int arg) as [N|] eqn:Hint.
      * right. exists N. split; [done|]. by apply Hread.
      * left. exists arg, rest. split; [done|]. split; [done|].
        unfold main, start.
        unfold bind at 1. rewrite bool_decide_eq_false_2 by (cbn; lia).
        unfold ret at 1. unfold bind at 1.
        cbn [index lookup list_lookup or_raise].
        unfold ret at 1. unfold bind at 1.
        rewrite bool_decide_eq_true_2 by (cbn; lia).
        unfold bind at 1. cbn [index lookup list_lookup or_raise].
        unfold ret at 1. by rewrite Hint.
Qed.

End Script.

Lemma read_error_ends_run_witness :
  main PyInt.int one_file ["plyreaed.py"; "none.ply"] start
  = Raised (ReadError "No such file or directory")
      (World [Reading "none.ply"] ["none.ply"])
  ∧ exit_status (main PyInt.int one_file ["plyreaed.py"; "none.ply"] start) = Some 1%Z.
Proof.
  apply (read_error_ends_run PyInt.int one_file "plyreaed.py" "none.ply" [] 5).
  - reflexivity.
  - reflexivity.
Defined.

Lemma missing_vertex_element_raises_key_error_witness :
  main PyInt.int (λ _, inl ∅ : gmap string (element nat nat) + unit)
    ["plyreaed.py"; "faces.ply"; "3"] start
  = Raised KeyError
      (World [Reading "faces.ply"; VertexDataTypeHeading] ["faces.ply"])
  ∧ exit_status
      (main PyInt.int (λ _, inl ∅ : gmap string (element nat nat) + unit)
         ["plyreaed.py"; "faces.ply"; "3"] start)
    = Some 1%Z.
Proof.
  apply (missing_vertex_element_raises_key_error PyInt.int _ _ _ ["3"] 3 ∅).
  - reflexivity.
  - reflexivity.
  - apply lookup_empty.
Defined.

Lemma negative_count_drops_last_vertices_witness :
  ∃ w,
    main PyInt.int one_file ["plyreaed.py"; "ten.ply"; "-3"] start = Done tt w
    ∧ vertex_lines (stdout w)
      = take (length (data ten) - Z.to_nat (- -3)) (data ten).
Proof.
  apply (negative_count_drops_last_vertices PyInt.int one_file "plyreaed.py" "ten.ply"
           ["-3"] {["vertex" := ten]} ten (-3)).
  - reflexivity.
  - lia.
  - reflexivity.
  - reflexivity.
Defined.

End InspectorEdges.
